(** * Broid integrations: the Slack [Parser] and the Kik [Adapter]

    A shallow embedding of [broid-slack/src/core/Parser.ts] and
    [broid-kik/src/core/Adapter.ts].  JavaScript values are an inductive type,
    objects are association lists in insertion order, promises are their
    settled outcome, and the platform SDK, the schema validator, the clock and
    the identifier generator are fields of explicit environment records. *)

From Stdlib Require Import ZArith List String Ascii Bool Lia DecimalString.
Import ListNotations.
Set Warnings "-register-all".
Local Open Scope string_scope.
Local Open Scope Z_scope.

(** ** JavaScript values *)

Module JS.

(** Numbers: the integers that a double holds exactly, and NaN.  Fractions
    and infinities do not occur in the code paths modelled here. *)
Inductive number : Type :=
| NaN
| Num (z : Z).

Inductive value : Type :=
| VUndefined
| VNull
| VBool (b : bool)
| VNum (n : number)
| VStr (s : string)
| VArr (items : list value)
| VObj (fields : list (string * value)).

(** What a throw statement or a rejected promise carries: a TypeError of
    the runtime, an [Error] made by [new Error(message)] in the modelled
    files, or whatever value code outside them threw or rejected with. *)
Inductive js_error : Type :=
| TypeError
| Error (message : string)
| Reason (v : value).

(** A settled promise. *)
Inductive promise (A : Type) : Type :=
| Fulfilled (a : A)
| Broken (e : js_error).
Arguments Fulfilled {A} a.
Arguments Broken {A} e.

(** The outcome of calling a promise-returning method: the promise it
    returns, settled, or the exception it throws before returning one. *)
Inductive outcome (A : Type) : Type :=
| Resolved (a : A)
| Rejected (e : js_error)
| Threw (e : js_error).
Arguments Resolved {A} a.
Arguments Rejected {A} e.
Arguments Threw {A} e.

(** [p.then(f)] on a settled promise, where [f] returns a promise. *)
Definition andThen {A B : Type} (p : promise A) (f : A -> promise B) : promise B :=
  match p with
  | Fulfilled a => f a
  | Broken e => Broken e
  end.

Notation "x <- p ;; k" := (andThen p (fun x => k))
  (at level 61, p at next level, right associativity).

(** A synchronous result: a value, or a thrown error. *)
Definition completion (A : Type) : Type := (A + js_error)%type.
Definition ret {A : Type} (a : A) : completion A := inl a.
Definition throw {A : Type} (e : js_error) : completion A := inr e.

(** A callback that throws inside [then] rejects the promise. *)
Definition settle {A : Type} (c : completion A) : promise A :=
  match c with
  | inl a => Fulfilled a
  | inr e => Broken e
  end.

(** ToBoolean. *)
Definition truthy (v : value) : bool :=
  match v with
  | VUndefined | VNull => false
  | VBool b => b
  | VNum NaN => false
  | VNum (Num z) => negb (z =? 0)
  | VStr s => negb (s =? "")%string
  | VArr _ | VObj _ => true
  end.

Definition isNil (v : value) : bool :=
  match v with
  | VUndefined | VNull => true
  | _ => false
  end.

(** [a || b] and [a && b]. *)
Definition js_or (a b : value) : value := if truthy a then a else b.
Definition js_and (a b : value) : value := if truthy a then b else a.

(** [v === 'literal']. *)
Definition is_str (v : value) (s : string) : bool :=
  match v with
  | VStr s' => (s' =? s)%string
  | _ => false
  end.

Fixpoint lookup (k : string) (fs : list (string * value)) : option value :=
  match fs with
  | [] => None
  | (k', v) :: rest => if (k' =? k)%string then Some v else lookup k rest
  end.

(** [o.k] for a value [o] that is neither null nor undefined.  The keys read
    by the modelled code are data field names, never [length], an index or a
    prototype member, so on primitives and arrays the result is undefined. *)
Definition get (o : value) (k : string) : value :=
  match o with
  | VObj fs => match lookup k fs with Some v => v | None => VUndefined end
  | _ => VUndefined
  end.

(** [o.k] in general: reading a property of null or undefined throws. *)
Definition prop (o : value) (k : string) : completion value :=
  if isNil o then throw TypeError else ret (get o k).

(** [k in o] for own data properties. *)
Definition has_field (o : value) (k : string) : bool :=
  match o with
  | VObj fs => match lookup k fs with Some _ => true | None => false end
  | _ => false
  end.

Fixpoint assign (k : string) (v : value) (fs : list (string * value))
  : list (string * value) :=
  match fs with
  | [] => [(k, v)]
  | (k', v') :: rest =>
      if (k' =? k)%string then (k, v) :: rest else (k', v') :: assign k v rest
  end.

(** [o.k = v] on an object. *)
Definition set (o : value) (k : string) (v : value) : value :=
  match o with
  | VObj fs => VObj (assign k v fs)
  | _ => o
  end.

Definition isObject (o : value) : Prop :=
  match o with
  | VObj _ => True
  | _ => False
  end.

(** Ramda's [R.isEmpty]: the empty string, array and object. *)
Definition R_isEmpty (v : value) : bool :=
  match v with
  | VStr s => (s =? "")%string
  | VArr [] => true
  | VObj [] => true
  | _ => false
  end.

(** Ramda's [R.isNil]. *)
Definition R_isNil (v : value) : bool := isNil v.

(** Ramda's [R.path]: stops with undefined at the first null or undefined. *)
Fixpoint R_path (ks : list string) (o : value) : value :=
  match ks with
  | [] => o
  | k :: rest => if isNil o then VUndefined else R_path rest (get o k)
  end.

Definition string_of_Z (z : Z) : string :=
  NilZero.string_of_int (Z.to_int z).

(** Whether the decimal integer [v] reads as the double [z], for
    [z >= 2^53]: [z] is [m * 2^q] with a 53-bit [m], and [v] must lie within
    half a gap of [z], the two ends included when [m] is even. *)
Definition readsAs (z v : Z) : bool :=
  let q := Z.log2 z - 52 in
  let m := z / 2 ^ q in
  let above := 2 ^ q in
  let below := if m =? 2 ^ 52 then 2 ^ (q - 1) else 2 ^ q in
  if Z.even m
  then (2 * z - below <=? 2 * v) && (2 * v <=? 2 * z + above)
  else (2 * z - below <? 2 * v) && (2 * v <? 2 * z + above).

(** The multiple of the largest power of ten, at most [10 ^ j], that reads
    as [z], with the exponent of that power: the fewest significant digits
    that identify [z], and among them the closest to [z]. *)
Fixpoint fewestDigits (j : nat) (z : Z) : Z * Z :=
  match j with
  | O => (z, 0)
  | S j' =>
      let u := 10 ^ Z.of_nat j in
      let lo := z / u * u in
      let hi := lo + u in
      let okLo := (0 <? lo) && readsAs z lo in
      let okHi := readsAs z hi in
      if okLo && okHi then
        if z - lo <? hi - z then (lo, Z.of_nat j)
        else if hi - z <? z - lo then (hi, Z.of_nat j)
        else if Z.even (lo / u) then (lo, Z.of_nat j) else (hi, Z.of_nat j)
      else if okLo then (lo, Z.of_nat j)
      else if okHi then (hi, Z.of_nat j)
      else fewestDigits j' z
  end.

(** Number::toString on a positive integer: the integer itself up to 2^53;
    beyond, the fewest digits that read back as the same double, followed by
    zeros up to 21 digits and in exponent notation from there. *)
Definition positiveToString (z : Z) : string :=
  if z <=? 2 ^ 53 then string_of_Z z
  else
    let '(c, j) := fewestDigits (String.length (string_of_Z z)) z in
    let n := String.length (string_of_Z c) in
    if (n <=? 21)%nat then string_of_Z c
    else
      match string_of_Z (c / 10 ^ j) with
      | String d EmptyString =>
          String d ("e+" ++ string_of_Z (Z.of_nat n - 1))
      | String d rest =>
          String d ("." ++ rest ++ "e+" ++ string_of_Z (Z.of_nat n - 1))
      | EmptyString => EmptyString
      end.

Definition Number_toString (z : Z) : string :=
  if z <? 0 then "-" ++ positiveToString (- z) else positiveToString z.

Fixpoint join (sep : string) (parts : list string) : string :=
  match parts with
  | [] => ""
  | [p] => p
  | p :: rest => p ++ sep ++ join sep rest
  end.

(** ToString, as a template literal applies it to plain data. *)
Fixpoint to_string (v : value) : string :=
  match v with
  | VUndefined => "undefined"
  | VNull => "null"
  | VBool true => "true"
  | VBool false => "false"
  | VNum NaN => "NaN"
  | VNum (Num z) => Number_toString z
  | VStr s => s
  | VArr items =>
      join "," (List.map (fun x => if isNil x then "" else to_string x) items)
  | VObj _ => "[object Object]"
  end.

(** [s.startsWith(p)]. *)
Definition startsWith (s p : string) : bool := String.prefix p s.

(** Strings hold text as UTF-8 bytes; [substr] and [substring] count UTF-16
    code units.  A character of one to three bytes is one unit.  A character
    of four bytes is a pair of surrogates, and cutting between them leaves a
    lone surrogate, kept here in the three-byte form of its code. *)
Definition byte (c : ascii) : N := N_of_ascii c.

Definition continuation (c : ascii) : bool :=
  ((128 <=? byte c) && (byte c <? 192))%N.

(** From the last three bytes of a four-byte character with low bits
    [b2 b3]: its low surrogate. *)
Definition lowSurrogate (c2 c3 : ascii) : list ascii :=
  [ ascii_of_N 237; ascii_of_N (176 + N.land (byte c2) 15); c3 ].

(** From the first three bytes of a four-byte character: its high
    surrogate. *)
Definition highSurrogate (c0 c1 c2 : ascii) : list ascii :=
  let w := (N.land (byte c0) 7 * 256 + N.land (byte c1) 63 * 4
            + N.land (byte c2 / 16) 3 - 64)%N in
  [ ascii_of_N 237; ascii_of_N (160 + N.land (w / 64) 15);
    ascii_of_N (128 + N.land w 63) ].

(** The bytes after the first code unit. *)
Definition afterFirstUnit (bytes : list ascii) : list ascii :=
  match bytes with
  | [] => []
  | c0 :: rest =>
      if (byte c0 <? 192)%N then rest
      else if (byte c0 <? 224)%N then List.skipn 1 rest
      else if (byte c0 <? 240)%N then List.skipn 2 rest
      else
        match rest with
        | _ :: c2 :: c3 :: rest' => (lowSurrogate c2 c3 ++ rest')%list
        | _ => []
        end
  end.

(** The same from the other end, on the bytes in reverse order. *)
Definition beforeLastUnit (reversed : list ascii) : list ascii :=
  match reversed with
  | [] => []
  | c :: rest =>
      if continuation c then
        match rest with
        | c1 :: rest1 =>
            if continuation c1 then
              match rest1 with
              | c2 :: rest2 =>
                  if continuation c2 then
                    match rest2 with
                    | c3 :: rest3 =>
                        if (240 <=? byte c3)%N
                        then (List.rev (highSurrogate c3 c2 c1) ++ rest3)%list
                        else rest
                    | [] => rest
                    end
                  else if (224 <=? byte c2)%N && (byte c2 <? 240)%N
                  then rest2 else rest
              | [] => rest
              end
            else if (192 <=? byte c1)%N && (byte c1 <? 224)%N
            then rest1 else rest
        | [] => rest
        end
      else rest
  end.

(** [s.substr(1)]. *)
Definition substr1 (s : string) : string :=
  string_of_list_ascii (afterFirstUnit (list_ascii_of_string s)).

(** [s.substring(0, s.length - 1)]. *)
Definition dropLast (s : string) : string :=
  string_of_list_ascii
    (List.rev (beforeLastUnit (List.rev (list_ascii_of_string s)))).

(** [s.split('.')[0]]: the characters before the first dot. *)
Fixpoint beforeDot (s : string) : string :=
  match s with
  | EmptyString => EmptyString
  | String c rest =>
      if Ascii.eqb c "."%char then EmptyString else String c (beforeDot rest)
  end.

Definition digit (c : ascii) : option Z :=
  let n := Z.of_nat (nat_of_ascii c) in
  if (48 <=? n) && (n <=? 57) then Some (n - 48) else None.

Fixpoint digitsFrom (acc : Z) (s : string) : option Z :=
  match s with
  | EmptyString => Some acc
  | String c rest =>
      match digit c with
      | Some d => digitsFrom (acc * 10 + d) rest
      | None => None
      end
  end.

(** The value of a non-empty string of decimal digits. *)
Definition decimal (s : string) : option Z :=
  match s with
  | EmptyString => None
  | _ => digitsFrom 0 s
  end.

(** [a * b] on numbers.  A product beyond 2^53 is rounded by a double; every
    use below feeds the product to a Date, which maps both the exact and the
    rounded value to NaN. *)
Definition mul (a : number) (b : Z) : number :=
  match a with
  | NaN => NaN
  | Num z => Num (z * b)
  end.

(** [new Date(t).getTime()]: TimeClip keeps a time value of magnitude at
    most 8.64e15 ms and turns anything else into NaN. *)
Definition maxTime : Z := 8640000000000000.

Definition Date_getTime (t : number) : number :=
  match t with
  | NaN => NaN
  | Num z => if Z.abs z <=? maxTime then Num z else NaN
  end.

(** [a / b] where [a] is a multiple of [b], as it is at its only use. *)
Definition divExact (a : number) (b : Z) : number :=
  match a with
  | NaN => NaN
  | Num z => Num (z / b)
  end.

End JS.

(** ** The Slack parser, [broid-slack/src/core/Parser.ts] *)

Module Parser.
Import JS.

Notation "x <~ c ;; k" :=
  (match c with inl x => k | inr e => inr e end)
  (at level 61, c at next level, right associativity).

(** What the file imports from [@broid/utils], [@broid/schemas] and the
    language runtime.  [Number] is StringToNumber; [schemas] returns a
    promise that is fulfilled when the object conforms to the named schema. *)
Record Imports : Type := {
  cleanNulls : value -> value;
  isUrl : string -> bool;
  schemas : value -> string -> promise unit;
  Number : string -> number
}.

(** What one run of [parse] reads from outside the program: [Date.now()] in
    milliseconds, the identifier [uuid.v4()] returns, and the file
    information fetched for a URL. *)
Record World : Type := {
  now : Z;
  uuid_v4 : string;
  fileInfo : string -> promise value
}.

(** The fields set by the constructor. *)
Record t : Type := {
  serviceID : string;
  generatorName : string
}.

Definition constructor (serviceName serviceID : string) : t :=
  {| serviceID := serviceID; generatorName := serviceName |}.

Section Methods.
Variable lib : Imports.
Variable this : t.

Definition validate (event : value) : outcome value :=
  let parsed := cleanNulls lib event in
  if negb (truthy parsed) || R_isEmpty parsed then Resolved VNull
  else if negb (truthy (get parsed "type")) then Resolved VNull
  else
    match schemas lib parsed "activity" with
    | Fulfilled _ => Resolved parsed
    | Broken _ => Resolved VNull
    end.

Definition createIdentifier (w : World) : value := VStr (uuid_v4 w).

(** [ts.split] exists on strings only. *)
Definition ts2Timestamp (ts : value) : completion number :=
  match ts with
  | VStr s =>
      let n := Number lib (beforeDot s) in
      ret (divExact (Date_getTime (mul n 1000)) 1000)
  | _ => throw TypeError
  end.

Definition createActivityStream (w : World) (normalized : value)
  : completion value :=
  let ts := js_or (get normalized "thread_ts") (get normalized "ts") in
  published <~
    (if truthy ts then ts2Timestamp ts else ret (Num (now w / 1000))) ;;
  ret (VObj
    [ ("@context", VStr "https://www.w3.org/ns/activitystreams");
      ("generator", VObj
         [ ("id", VStr (serviceID this));
           ("name", VStr (generatorName this));
           ("type", VStr "Service") ]);
      ("published", VNum published);
      ("type", VStr "Create") ]).

Definition parseFile (attachment : value) : completion value :=
  mimetype <~ prop attachment "mimetype" ;;
  match mimetype with
  | VStr m =>
      if startsWith m "image" || startsWith m "video" then
        let mediaType := if startsWith m "video" then "Video" else "Image" in
        let a := VObj
          [ ("mediaType", VStr m);
            ("name", get attachment "name");
            ("type", VStr mediaType);
            ("url", get attachment "permalink_public") ] in
        let a :=
          if truthy (get attachment "thumb_1024")
          then set a "preview" (get attachment "thumb_1024") else a in
        comment <~
          (match get attachment "initial_comment" with
           | VArr items => prop (nth 0 items VUndefined) "comment"
           | initial_comment => prop initial_comment "comment"
           end) ;;
        ret (set a "content" (js_or comment (VStr "")))
      else ret VNull
  | _ => throw TypeError
  end.

(** The identifier of a Note or attachment object. *)
Definition messageId (w : World) (normalized : value) : value :=
  js_or (js_or (get normalized "thread_ts") (get normalized "ts"))
        (createIdentifier w).

(** The first [then] callback of [parse]. *)
Definition extractObject (w : World) (normalized as2 : value) : promise value :=
  match get normalized "text" with
  | VStr text =>
      let url := dropLast (substr1 text) in
      if isUrl lib url then
        infos <- fileInfo w url ;;
        settle (
          mimetype <~ prop infos "mimetype" ;;
          match mimetype with
          | VStr mediaType =>
              let fileType :=
                if startsWith mediaType "image/" then VStr "Image"
                else if startsWith mediaType "video/" then VStr "Video"
                else VNull in
              ret (set as2 "object" (VObj
                [ ("id", js_or (get normalized "eventID") (createIdentifier w));
                  ("mediaType", VStr mediaType);
                  ("type", fileType);
                  ("url", VStr url) ]))
          | _ => throw TypeError
          end)
      else if truthy (get normalized "file") then
        settle (
          attachment <~ parseFile (get normalized "file") ;;
          if truthy attachment then
            let as2 := set as2 "object" (VObj
              [ ("content", get attachment "content");
                ("id", messageId w normalized);
                ("mediaType", get attachment "mediaType");
                ("name", get attachment "name");
                ("type", get attachment "type");
                ("url", get attachment "url") ]) in
            if truthy (get attachment "preview") then
              ret (set as2 "object"
                     (set (get as2 "object") "preview" (get attachment "preview")))
            else ret as2
          else ret as2)
      else Fulfilled as2
  | _ => Broken TypeError
  end.

(** The second [then] callback of [parse]. *)
Definition attachNoteAndContext (w : World) (normalized as2 : value)
  : promise value :=
  let as2 :=
    if negb (truthy (get as2 "object"))
       && negb (R_isEmpty (get normalized "content"))
    then set as2 "object" (VObj
      [ ("content", get normalized "text");
        ("id", messageId w normalized);
        ("type", VStr "Note") ])
    else as2 in
  let as2 :=
    if truthy (get as2 "object")
       && is_str (get normalized "subtype") "interactive_message"
    then set as2 "object" (set (get as2 "object") "context" (VObj
      [ ("content", VStr (to_string (get normalized "callback_id") ++ "#"
                          ++ to_string (get normalized "response_url")));
        ("name", VStr "interactive_message_callback");
        ("type", VStr "Object") ]))
    else as2 in
  Fulfilled as2.

Definition actorOf (normalized : value) : value :=
  VObj
    [ ("id", R_path ["user"; "id"] normalized);
      ("name", R_path ["user"; "name"] normalized);
      ("type", VStr (if truthy (R_path ["user"; "is_bot"] normalized)
                     then "Application" else "Person")) ].

Definition targetOf (normalized : value) : value :=
  VObj
    [ ("id", R_path ["channel"; "id"] normalized);
      ("name", js_or (R_path ["channel"; "id"] normalized)
                     (R_path ["channel"; "user"] normalized));
      ("type", VStr (if truthy (R_path ["channel"; "is_im"] normalized)
                     then "Person" else "Group")) ].

Definition parse (w : World) (event : value) : outcome value :=
  let normalized := cleanNulls lib event in
  if negb (truthy normalized) || R_isEmpty normalized then Resolved VNull
  else if negb (truthy (get normalized "text")) then Resolved VNull
  else
    match createActivityStream w normalized with
    | inr e => Threw e
    | inl activitystreams =>
        let activitystreams := set activitystreams "actor" (actorOf normalized) in
        let activitystreams := set activitystreams "target" (targetOf normalized) in
        match (as2 <- extractObject w normalized activitystreams ;;
               attachNoteAndContext w normalized as2) with
        | Fulfilled as2 => Resolved as2
        | Broken e => Rejected e
        end
    end.

End Methods.

(** *** Notions used to state the parser's properties *)

(** The largest number of whole seconds a Date can hold. *)
Definition maxSeconds : Z := 8640000000000.

(** The runtime's StringToNumber agrees with decimal notation on digit
    strings that a double holds exactly. *)
Definition readsDecimals (lib : Imports) : Prop :=
  forall s z, decimal s = Some z -> z <= 9007199254740992 ->
              Number lib s = Num z.

(** The object literal returned by [createActivityStream]. *)
Definition baseStream (this : t) (published : number) : value :=
  VObj
    [ ("@context", VStr "https://www.w3.org/ns/activitystreams");
      ("generator", VObj
         [ ("id", VStr (serviceID this));
           ("name", VStr (generatorName this));
           ("type", VStr "Service") ]);
      ("published", VNum published);
      ("type", VStr "Create") ].

(** The stream once [parse] has set its actor and target. *)
Definition addressed (this : t) (published : number) (normalized : value)
  : value :=
  set (set (baseStream this published) "actor" (actorOf normalized))
      "target" (targetOf normalized).

(** An activity stream under construction: an object whose [object] field
    is unset, or is an object without a [context] field. *)
Definition plainObject (as2 : value) : Prop :=
  isObject as2
  /\ (get as2 "object" = VUndefined
      \/ isObject (get as2 "object")
         /\ has_field (get as2 "object") "context" = false).

(** [b] differs from [a] in the [object] field only. *)
Definition sameEnvelope (a b : value) : Prop :=
  forall k, k <> "object" -> get b k = get a k.

(** The context object attached to an interactive message. *)
Definition callbackContext (normalized : value) : value :=
  VObj
    [ ("content", VStr (to_string (get normalized "callback_id") ++ "#"
                        ++ to_string (get normalized "response_url")));
      ("name", VStr "interactive_message_callback");
      ("type", VStr "Object") ].

(** Whether the message text, without its first and last character, is a
    URL: the test that sends [parse] to the file information. *)
Definition textIsUrl (lib : Imports) (normalized : value) : bool :=
  match get normalized "text" with
  | VStr text => isUrl lib (dropLast (substr1 text))
  | _ => false
  end.

(** Where [parseFile] reads the comment: [initial_comment], or its first
    element when it is an array. *)
Definition commentHolder (attachment : value) : value :=
  match get attachment "initial_comment" with
  | VArr items => nth 0 items VUndefined
  | initial_comment => initial_comment
  end.

(** *** A concrete environment, for running the parser on examples *)

(** An instance of [cleanNulls], which lives in [@broid/utils]: it drops the
    null and undefined members of arrays and objects, recursively, and
    leaves every other value as it is. *)
Fixpoint dropNulls (v : value) : value :=
  match v with
  | VArr items =>
      VArr ((fix each (l : list value) : list value :=
               match l with
               | [] => []
               | x :: rest =>
                   if isNil x then each rest else dropNulls x :: each rest
               end) items)
  | VObj fields =>
      VObj ((fix each (l : list (string * value)) : list (string * value) :=
               match l with
               | [] => []
               | (k, x) :: rest =>
                   if isNil x then each rest else (k, dropNulls x) :: each rest
               end) fields)
  | _ => v
  end.

(** StringToNumber on the empty string and on decimal digits; the literals
    with a sign, an exponent, a radix prefix or white space are not used by
    the examples. *)
Definition digitsToNumber (s : string) : number :=
  if (s =? "")%string then Num 0
  else match decimal s with Some z => Num z | None => NaN end.

Definition httpUrl (s : string) : bool :=
  startsWith s "http://" || startsWith s "https://".

Definition acceptAll (v : value) (name : string) : promise unit := Fulfilled tt.

Definition sampleImports : Imports :=
  {| cleanNulls := dropNulls; isUrl := httpUrl;
     schemas := acceptAll; Number := digitsToNumber |}.

Definition sampleParser : t := constructor "slack" "svc-1".

Definition sampleWorld (clock : Z) (id : string) : World :=
  {| now := clock; uuid_v4 := id;
     fileInfo := fun _ => Fulfilled (VObj [("mimetype", VStr "image/png")]) |}.

Definition sampleText : value := VObj [("text", VStr "hello")].

Definition sampleTimed : value :=
  VObj [ ("text", VStr "hello"); ("ts", VStr "1355517523.000005");
         ("user", VObj [("id", VStr "U1"); ("name", VStr "ann")]);
         ("channel", VObj [("id", VStr "C1")]) ].

Definition sampleFarFuture : value :=
  VObj [("text", VStr "hello"); ("ts", VStr "8640000000001.000200")].




Definition sampleBareFile : value :=
  VObj [ ("text", VStr "see this");
         ("file", VObj [("mimetype", VStr "image/png")]) ].

Definition sampleInteractive : value :=
  VObj [ ("text", VStr "pick one"); ("ts", VStr "1355517523.000005");
         ("subtype", VStr "interactive_message");
         ("callback_id", VStr "cb42");
         ("response_url", VStr "https://hooks.example/r") ].

End Parser.

(** ** The Kik adapter, [broid-kik/src/core/Adapter.ts] *)

Module Adapter.
Import JS.

Notation "x <~ c ;; k" :=
  (match c with inl x => k | inr e => inr e end)
  (at level 61, c at next level, right associativity).

(** A [KikBot.Message] under construction. *)
Record Message : Type := {
  msgType : string;
  payload : value;
  attributionName : option value;
  attributionIcon : option value;
  responseKeyboard : option (value * value)
}.

Definition Message_new (kind : string) (v : value) : Message :=
  {| msgType := kind; payload := v; attributionName := None;
     attributionIcon := None; responseKeyboard := None |}.
Definition Message_text := Message_new "text".
Definition Message_picture := Message_new "picture".
Definition Message_video := Message_new "video".

Definition setAttributionName (name : value) (m : Message) : Message :=
  {| msgType := msgType m; payload := payload m; attributionName := Some name;
     attributionIcon := attributionIcon m;
     responseKeyboard := responseKeyboard m |}.

Definition setAttributionIcon (icon : value) (m : Message) : Message :=
  {| msgType := msgType m; payload := payload m;
     attributionName := attributionName m; attributionIcon := Some icon;
     responseKeyboard := responseKeyboard m |}.

Definition addResponseKeyboard (btns toID : value) (m : Message) : Message :=
  {| msgType := msgType m; payload := payload m;
     attributionName := attributionName m;
     attributionIcon := attributionIcon m;
     responseKeyboard := Some (btns, toID) |}.

(** The calls the adapter makes on what it does not own, in order. *)
Inductive effect : Type :=
| SchemaValidate (data : value) (schema : string)
| NewKikBot (kikOptions : value)
| RouterUse (path : string)
| WebhookListen
| WebhookClose
| UpdateBotConfiguration
| GetUserProfile (key : value)
| ParserNormalize (incoming userInformation : value)
| ParserParse (normalized : value)
| ParserValidate (parsed : value)
| ObserverNext (event : value)
| Next
| SessionSend (content : Message) (toID : value).

(** The outcome of constructing an object of another module: the object,
    or the value its constructor throws. *)
Inductive foreign (A : Type) : Type :=
| Returns (a : A)
| Raises (thrown : value).
Arguments Returns {A} a.
Arguments Raises {A} thrown.

Definition construct {A : Type} (f : foreign A) : completion A :=
  match f with
  | Returns a => ret a
  | Raises thrown => throw (Reason thrown)
  end.

(** The schema validator, the Kik SDK, node's [url.parse], the adapter's own
    [Parser], the logger, the express router and the webhook server, none of
    which this file defines.  [Parser_new] takes the service name, service
    id and log level, [Logger_new] the logger's name and the log level,
    [WebHookServer_new] the http options and the log level. *)
Record Imports : Type := {
  schemas : value -> string -> promise unit;
  uuid_v4 : string;
  url_parse : string -> value;
  KikBot : value -> completion value;
  session_send : Message -> value -> promise unit;
  session_getUserProfile : value -> promise value;
  parser_normalize : value -> value -> promise value;
  parser_parse : value -> promise value;
  parser_validate : value -> promise value;
  webhookServer_close : promise value;
  Parser_new : string -> value -> value -> foreign unit;
  Logger_new : string -> value -> foreign unit;
  Router_new : foreign unit;
  WebHookServer_new : value -> value -> foreign value
}.

(** The adapter's fields.  [connected] is declared boolean and left
    unassigned by the constructor; it is only ever tested for truth, so the
    initial undefined is [false] here.  [router] lists the mounted paths. *)
Record t : Type := {
  serviceID : value;
  logLevel : value;
  token : value;
  username : value;
  storeUsers : list (value * value);
  webhookURL : string;
  connected : bool;
  session : option value;
  router : list string;
  webhookServer : option value
}.

Definition with_connected (b : bool) (a : t) : t :=
  {| serviceID := serviceID a; logLevel := logLevel a; token := token a;
     username := username a; storeUsers := storeUsers a;
     webhookURL := webhookURL a; connected := b; session := session a;
     router := router a; webhookServer := webhookServer a |}.

Definition with_session (s : value) (paths : list string) (a : t) : t :=
  {| serviceID := serviceID a; logLevel := logLevel a; token := token a;
     username := username a; storeUsers := storeUsers a;
     webhookURL := webhookURL a; connected := connected a; session := Some s;
     router := paths; webhookServer := webhookServer a |}.

Definition with_storeUsers (m : list (value * value)) (a : t) : t :=
  {| serviceID := serviceID a; logLevel := logLevel a; token := token a;
     username := username a; storeUsers := m;
     webhookURL := webhookURL a; connected := connected a;
     session := session a; router := router a;
     webhookServer := webhookServer a |}.

Fixpoint endsWithSlash (s : string) : bool :=
  match s with
  | EmptyString => false
  | String c EmptyString => Ascii.eqb c "/"%char
  | String _ rest => endsWithSlash rest
  end.

(** [s.replace(/\/?$/, '/')]: the match is the final slash if there is
    one and the empty string at the end otherwise. *)
Definition withTrailingSlash (s : string) : string :=
  if endsWithSlash s then s else s ++ "/".

(** [s.replace(/\/?$/, '')]. *)
Definition withoutTrailingSlash (s : string) : string :=
  if endsWithSlash s then dropLast s else s.

Section Methods.
Variable env : Imports.

Definition serviceName : string := "kik".

Definition constructor (obj : value) : completion t :=
  let serviceID := js_or (js_and obj (get obj "serviceID")) (VStr (uuid_v4 env)) in
  let logLevel := js_or (js_and obj (get obj "logLevel")) (VStr "info") in
  let token := js_or (js_and obj (get obj "token")) VNull in
  let username := js_or (js_and obj (get obj "username")) (VStr "SMS") in
  if is_str token "" then throw (Error "Token should exist.")
  else
    url <~ prop obj "webhookURL" ;;
    match url with
    | VStr u =>
        _ <~ construct (Parser_new env serviceName serviceID logLevel) ;;
        _ <~ construct (Logger_new env "adapter" logLevel) ;;
        _ <~ construct (Router_new env) ;;
        server <~
          (if truthy (get obj "http") then
             s <~ construct (WebHookServer_new env (get obj "http") logLevel) ;;
             ret (Some s)
           else ret None) ;;
        ret {| serviceID := serviceID; logLevel := logLevel; token := token;
               username := username; storeUsers := [];
               webhookURL := withTrailingSlash u; connected := false;
               session := None; router := [];
               webhookServer := server |}
    | _ => throw TypeError
    end.

Definition serviceId (this : t) : value := serviceID this.

(** [None] is the method's null. *)
Definition getRouter (this : t) : option (list string) :=
  match webhookServer this with
  | Some _ => None
  | None => Some (router this)
  end.

Inductive observable : Type :=
| ObservableOf (v : value)
| ObservableThrow (e : js_error)
| ObservableCreate.

Definition connectedEvent (this : t) : value :=
  VObj [("type", VStr "connected"); ("serviceID", serviceId this)].

Definition connect (this : t) : completion observable * t * list effect :=
  if connected this then (ret (ObservableOf (connectedEvent this)), this, [])
  else if negb (truthy (token this)) || negb (truthy (username this))
          || negb (truthy (VStr (webhookURL this)))
  then (ret (ObservableThrow (Error "Credentials should exist.")), this, [])
  else
    let webhookURL := url_parse env (webhookURL this) in
    let kikOptions := VObj
      [ ("apiKey", token this);
        ("baseUrl", VStr (to_string (get webhookURL "protocol") ++ "//"
                          ++ to_string (get webhookURL "hostname")));
        ("incomingPath", VStr "/");
        ("username", username this) ] in
    let options : completion value :=
      if truthy (get webhookURL "path") then
        match get webhookURL "path" with
        | VStr p => ret (set kikOptions "incomingPath"
                           (VStr (withoutTrailingSlash p)))
        | _ => throw TypeError
        end
      else ret kikOptions in
    match options with
    | inr e => (throw e, this, [])
    | inl kikOptions =>
        match KikBot env kikOptions with
        | inr e => (throw e, this, [NewKikBot kikOptions])
        | inl s =>
            let this := with_session s (router this ++ ["/"])%list this in
            let listening :=
              match webhookServer this with
              | Some _ => [WebhookListen]
              | None => []
              end in
            let this := with_connected true this in
            (ret (ObservableOf (connectedEvent this)), this,
             ([NewKikBot kikOptions; RouterUse "/"] ++ listening)%list)
        end
    end.

Definition disconnect (this : t) : promise value * t * list effect :=
  let this := with_connected true this in
  match webhookServer this with
  | Some _ => (webhookServer_close env, this, [WebhookClose])
  | None => (Fulfilled VNull, this, [])
  end.

(** Methods that return a promise: they read and update the adapter and
    log the calls they make. *)
Definition action (A : Type) : Type := t -> promise A * t * list effect.

Definition pure {A : Type} (a : A) : action A :=
  fun this => (Fulfilled a, this, []).

Definition fail {A : Type} (e : js_error) : action A :=
  fun this => (Broken e, this, []).

Definition bind {A B : Type} (m : action A) (k : A -> action B) : action B :=
  fun this =>
    let '(p, this1, tr1) := m this in
    match p with
    | Fulfilled a =>
        let '(q, this2, tr2) := k a this1 in (q, this2, (tr1 ++ tr2)%list)
    | Broken e => (Broken e, this1, tr1)
    end.

Notation "x <-- m ;; k" := (bind m (fun x => k))
  (at level 61, m at next level, right associativity).

(** A logged call to something outside the adapter. *)
Definition call {A : Type} (ev : effect) (p : promise A) : action A :=
  fun this => (p, this, [ev]).

Definition tell (ev : effect) : action unit := call ev (Fulfilled tt).

Definition liftC {A : Type} (c : completion A) : action A :=
  fun this => (settle c, this, []).

(** Key equality of a [Map].  Arrays and objects are compared by reference,
    and a key read from a new request is a new reference. *)
Definition sameValueZero (a b : value) : bool :=
  match a, b with
  | VUndefined, VUndefined | VNull, VNull => true
  | VBool x, VBool y => Bool.eqb x y
  | VNum NaN, VNum NaN => true
  | VNum (Num x), VNum (Num y) => x =? y
  | VStr x, VStr y => (x =? y)%string
  | _, _ => false
  end.

Fixpoint Map_get (key : value) (m : list (value * value)) : value :=
  match m with
  | [] => VUndefined
  | (k, v) :: rest => if sameValueZero k key then v else Map_get key rest
  end.

Fixpoint Map_set (key v : value) (m : list (value * value))
  : list (value * value) :=
  match m with
  | [] => [(key, v)]
  | (k, v') :: rest =>
      if sameValueZero k key then (k, v) :: rest
      else (k, v') :: Map_set key v rest
  end.

Definition users : action (list (value * value)) :=
  fun this => (Fulfilled (storeUsers this), this, []).

Definition channels : action value := fail (Error "Not supported").

Definition user (key : value) (cache : bool) : action value :=
  fun this =>
    match session this with
    | None => (Broken (Error "Session should be initilized before."), this, [])
    | Some _ =>
        if cache && truthy (Map_get key (storeUsers this))
        then (Fulfilled (Map_get key (storeUsers this)), this, [])
        else
          (profile <-- call (GetUserProfile key)
                            (session_getUserProfile env key) ;;
           data <-- liftC (
             displayName <~ prop profile "displayName" ;;
             ret (VObj
               [ ("displayName", displayName);
                 ("firstName", get profile "firstName");
                 ("id", key);
                 ("lastName", get profile "lastName");
                 ("profilePicLastModified", get profile "profilePicLastModified");
                 ("profilePicUrl", get profile "profilePicUrl");
                 ("username", get profile "username") ])) ;;
           fun this =>
             (Fulfilled data,
              with_storeUsers (Map_set key data (storeUsers this)) this, []))
          this
    end.

Definition listen (this : t) : observable * list effect :=
  match session this with
  | None => (ObservableThrow (Error "No session found."), [])
  | Some _ => (ObservableCreate, [UpdateBotConfiguration])
  end.

(** The middleware that [listen] registers with [session.use], run on one
    incoming message; [ObserverNext] is [observer.next]. *)
Definition onIncoming (incoming : value) : action unit :=
  userInformation <-- user (get incoming "from") true ;;
  normalized <-- call (ParserNormalize incoming userInformation)
                      (parser_normalize env incoming userInformation) ;;
  parsed <-- call (ParserParse normalized) (parser_parse env normalized) ;;
  validated <-- call (ParserValidate parsed) (parser_validate env parsed) ;;
  _ <-- (if truthy validated then tell (ObserverNext validated) else pure tt) ;;
  tell Next.

(** [R.filter(a => a.type === 'Button')] over an array. *)
Fixpoint filterButtons (items : list value) : completion (list value) :=
  match items with
  | [] => ret []
  | attachment :: rest =>
      ty <~ prop attachment "type" ;;
      kept <~ filterButtons rest ;;
      ret (if is_str ty "Button" then attachment :: kept else kept)
  end.

(** The same over the values of an object. *)
Fixpoint filterButtonFields (fields : list (string * value))
  : completion (list (string * value)) :=
  match fields with
  | [] => ret []
  | (k, attachment) :: rest =>
      ty <~ prop attachment "type" ;;
      kept <~ filterButtonFields rest ;;
      ret (if is_str ty "Button" then (k, attachment) :: kept else kept)
  end.

Definition buttonLabel (button : value) : value :=
  js_or (get button "url") (get button "name").

(** The filter, map and reject that [send] applies to [attachments || []];
    on a primitive Ramda's filter yields the empty array. *)
Definition buttonsOf (attachments : value) : completion value :=
  match js_or attachments (VArr []) with
  | VArr items =>
      buttons <~ filterButtons items ;;
      ret (VArr (List.filter (fun b => negb (R_isNil b))
                   (List.map buttonLabel buttons)))
  | VObj fields =>
      buttons <~ filterButtonFields fields ;;
      ret (VObj (List.filter (fun kb => negb (R_isNil (snd kb)))
                   (List.map (fun kb => (fst kb, buttonLabel (snd kb))) buttons)))
  | _ => ret (VArr [])
  end.

Definition sentEvent (this : t) : value :=
  VObj [("type", VStr "sent"); ("serviceID", serviceId this)].

(** The message built for the object type, with the buttons to attach. *)
Definition buildMessage (data btns : value) : value * option Message :=
  let dataType := R_path ["object"; "type"] data in
  if is_str dataType "Image" || is_str dataType "Video" then
    let url := R_path ["object"; "url"] data in
    let name := js_or (R_path ["object"; "name"] data) (VStr "") in
    let preview := js_or (R_path ["object"; "preview"] data) url in
    let message : option Message := None in
    let message :=
      if is_str dataType "Image" then Some (Message_picture url) else message in
    let message :=
      if is_str dataType "Video" then Some (Message_video url) else message in
    let message :=
      match message with
      | Some m => if truthy name then Some (setAttributionName name m) else message
      | None => message
      end in
    let message :=
      match message with
      | Some m =>
          if truthy preview then Some (setAttributionIcon preview m) else message
      | None => message
      end in
    (btns, message)
  else if is_str dataType "Note" then
    (btns, Some (Message_text (R_path ["object"; "content"] data)))
  else (VNull, None).

Definition send (data : value) : action value :=
  _ <-- call (SchemaValidate data "send") (schemas env data "send") ;;
  let toID := js_or (R_path ["to"; "id"] data) (R_path ["to"; "name"] data) in
  let attachments := R_path ["object"; "attachment"] data in
  buttons <-- liftC (buttonsOf attachments) ;;
  match buildMessage data buttons with
  | (btns, Some content) =>
      let content :=
        if truthy btns && negb (R_isEmpty btns)
        then addResponseKeyboard btns toID content else content in
      fun this =>
        match session this with
        | None => (Broken TypeError, this, [])
        | Some _ =>
            (_ <-- call (SessionSend content toID)
                        (session_send env content toID) ;;
             fun this => (Fulfilled (sentEvent this), this, [])) this
        end
  | (_, None) => fail (Error "Only Note, Image, and Video are supported.")
  end.

(** The public methods, as calls a client can make in any order, and the
    adapter after a sequence of them. *)
Inductive method : Type :=
| Connect
| Disconnect
| Listen
| Incoming (incoming : value)
| Send (data : value)
| Users
| Channels
| GetRouter.

Definition step (this : t) (m : method) : t :=
  match m with
  | Connect => snd (fst (connect this))
  | Disconnect => snd (fst (disconnect this))
  | Incoming incoming => snd (fst (onIncoming incoming this))
  | Send data => snd (fst (send data this))
  | Users => snd (fst (users this))
  | Channels => snd (fst (channels this))
  | Listen | GetRouter => this
  end.

Definition run (this : t) (calls : list method) : t :=
  List.fold_left step calls this.

End Methods.

(** *** Notions used to state the adapter's properties *)

(** The object types [send] builds a message for. *)
Definition supported (data : value) : bool :=
  let dataType := R_path ["object"; "type"] data in
  is_str dataType "Note" || is_str dataType "Image" || is_str dataType "Video".

(** The part of the adapter that no promise-returning method touches. *)
Definition link (this : t) : value * bool * option value * list string :=
  (serviceID this, connected this, session this, router this).

Definition preserves {A : Type} (m : action A) : Prop :=
  forall this, link (snd (fst (m this))) = link this.

(** [object.attachment], when it is an array or an object, holds no null
    or undefined entry: the callback of [R.filter] can read [type] on each. *)
Definition noNullAttachment (attachments : value) : bool :=
  match js_or attachments (VArr []) with
  | VArr items => List.forallb (fun a => negb (isNil a)) items
  | VObj fields => List.forallb (fun kv => negb (isNil (snd kv))) fields
  | _ => true
  end.

(** What the constructor fixes for the life of the adapter. *)
Definition config (this : t)
  : value * value * value * value * string * option value :=
  (serviceID this, logLevel this, token this, username this,
   webhookURL this, webhookServer this).

(** [attachment.type === 'Button'] on an entry that is not null. *)
Definition isButton (attachment : value) : bool :=
  is_str (get attachment "type") "Button".

(** The labels [send] hands to the keyboard for an array of attachments. *)
Definition buttonLabels (items : list value) : list value :=
  List.filter (fun b => negb (R_isNil b))
    (List.map buttonLabel (List.filter isButton items)).

(** *** A concrete environment, for running the adapter on examples *)

Definition sampleImports : Imports :=
  {| schemas := fun _ _ => Fulfilled tt;
     uuid_v4 := "0000";
     url_parse := fun _ => VObj
       [ ("protocol", VStr "https:"); ("hostname", VStr "bot.example");
         ("path", VStr "/kik/") ];
     KikBot := fun options => ret options;
     session_send := fun _ _ => Fulfilled tt;
     session_getUserProfile := fun _ => Fulfilled (VObj [("username", VStr "u")]);
     parser_normalize := fun incoming _ => Fulfilled incoming;
     parser_parse := fun normalized => Fulfilled normalized;
     parser_validate := fun parsed => Fulfilled parsed;
     webhookServer_close := Fulfilled VNull;
     Parser_new := fun _ _ _ => Returns tt;
     Logger_new := fun _ _ => Returns tt;
     Router_new := Returns tt;
     WebHookServer_new := fun http _ => Returns http |}.

(** The same with a logger that refuses the log level, as the real one does
    for a level it does not know. *)
Definition strictImports : Imports :=
  {| schemas := schemas sampleImports;
     uuid_v4 := uuid_v4 sampleImports;
     url_parse := url_parse sampleImports;
     KikBot := KikBot sampleImports;
     session_send := session_send sampleImports;
     session_getUserProfile := session_getUserProfile sampleImports;
     parser_normalize := parser_normalize sampleImports;
     parser_parse := parser_parse sampleImports;
     parser_validate := parser_validate sampleImports;
     webhookServer_close := webhookServer_close sampleImports;
     Parser_new := Parser_new sampleImports;
     Logger_new := fun _ level =>
       if is_str level "info" || is_str level "debug"
       then Returns tt
       else Raises (VStr ("unknown level " ++ to_string level));
     Router_new := Router_new sampleImports;
     WebHookServer_new := WebHookServer_new sampleImports |}.

Definition sampleOptions : value :=
  VObj [ ("serviceID", VStr "svc-kik"); ("token", VStr "secret");
         ("username", VStr "bot"); ("webhookURL", VStr "https://bot.example/kik") ].

(** The adapter that the constructor builds from [sampleOptions]. *)
Definition sampleAdapter : t :=
  {| serviceID := VStr "svc-kik"; logLevel := VStr "info";
     token := VStr "secret"; username := VStr "bot"; storeUsers := [];
     webhookURL := "https://bot.example/kik/"; connected := false;
     session := None; router := []; webhookServer := None |}.

Definition sampleHttpOptions : value :=
  set sampleOptions "http" (VObj [("port", VNum (Num 8080))]).

Definition samplePicture : value :=
  VObj [ ("to", VObj [("name", VStr "alice")]);
         ("object", VObj [ ("type", VStr "Image");
                           ("url", VStr "https://files.example/cat.png") ]) ].

(** A message in the envelope that the 'send' schema asks for. *)
Definition sampleSendNote : value :=
  VObj [ ("@context", VStr "https://www.w3.org/ns/activitystreams");
         ("type", VStr "Create");
         ("generator", VObj [ ("id", VStr "svc-kik"); ("type", VStr "Service");
                              ("name", VStr "kik") ]);
         ("object", VObj [("type", VStr "Note"); ("content", VStr "hello world")]);
         ("to", VObj [("type", VStr "Person"); ("id", VStr "alice")]) ].

Definition sampleNote : value :=
  VObj [ ("to", VObj [("id", VStr "alice")]);
         ("object", VObj [("type", VStr "Note"); ("content", VStr "hi")]) ].

End Adapter.

(** * Properties of the string and number primitives *)

Module JSFacts.
Import JS.

Example substr1_ascii_text : substr1 "<http://a.b>" = "http://a.b>".
Proof. reflexivity. Qed.

Example dropLast_ascii_text : dropLast "http://a.b>" = "http://a.b".
Proof. reflexivity. Qed.

(** U+00E9, two bytes, and U+20AC, three bytes, are one unit each. *)
Example substr1_two_and_three_bytes :
  substr1 (String (ascii_of_N 195) (String (ascii_of_N 169) "x")) = "x"
  /\ substr1 (String (ascii_of_N 226) (String (ascii_of_N 130)
                (String (ascii_of_N 172) "x"))) = "x"
  /\ dropLast (String "x" (String (ascii_of_N 195)
                 (String (ascii_of_N 169) ""))) = "x"
  /\ dropLast (String "x" (String (ascii_of_N 226) (String (ascii_of_N 130)
                 (String (ascii_of_N 172) "")))) = "x".
Proof. repeat split. Qed.

(** U+1F600, four bytes, is the pair D83D DE00. *)
Example surrogates_of_four_bytes :
  substr1 (String (ascii_of_N 240) (String (ascii_of_N 159)
            (String (ascii_of_N 152) (String (ascii_of_N 128) "x"))))
  = String (ascii_of_N 237) (String (ascii_of_N 184)
      (String (ascii_of_N 128) "x"))
  /\ dropLast (String "x" (String (ascii_of_N 240) (String (ascii_of_N 159)
                 (String (ascii_of_N 152) (String (ascii_of_N 128) "")))))
     = String "x" (String (ascii_of_N 237) (String (ascii_of_N 160)
         (String (ascii_of_N 189) ""))).
Proof. split; reflexivity. Qed.

Example Number_toString_values :
  Number_toString 0 = "0"
  /\ Number_toString (-42) = "-42"
  /\ Number_toString 9007199254740992 = "9007199254740992"
  /\ Number_toString 1152921504606846976 = "1152921504606847000"
  /\ Number_toString 18446744073709551616 = "18446744073709552000"
  /\ Number_toString 100000000000000000000 = "100000000000000000000"
  /\ Number_toString 1000000000000000000000 = "1e+21"
  /\ Number_toString 1180591620717411303424 = "1.1805916207174113e+21"
  /\ Number_toString 9500000000000001048576 = "9.5e+21"
  /\ Number_toString 99999999999999991611392 = "1e+23"
  /\ Number_toString 123456789012345685803008 = "1.2345678901234569e+23"
  /\ Number_toString (-1267650600228229401496703205376)
     = "-1.2676506002282294e+30".
Proof. repeat split; vm_compute; reflexivity. Qed.

Lemma list_ascii_of_string_app (u v : string) :
  list_ascii_of_string (u ++ v)
  = (list_ascii_of_string u ++ list_ascii_of_string v)%list.
Proof. induction u as [|c u IH]; simpl; [reflexivity | now rewrite IH]. Qed.

(** A first byte that is a character of its own is what [substr(1)]
    removes. *)
Lemma substr1_single_byte (a : ascii) (rest : string) :
  (byte a <? 192)%N = true -> substr1 (String a rest) = rest.
Proof.
  intros Ha. unfold substr1. simpl. rewrite Ha.
  apply string_of_list_ascii_of_string.
Qed.

(** A last byte that is a character of its own is what the [substring]
    removes. *)
Lemma dropLast_single_byte (u : string) (b : ascii) :
  continuation b = false -> dropLast (u ++ String b "") = u.
Proof.
  intros Hb. unfold dropLast.
  rewrite list_ascii_of_string_app. simpl.
  rewrite rev_app_distr. simpl. rewrite Hb.
  rewrite rev_involutive. apply string_of_list_ascii_of_string.
Qed.

End JSFacts.

(** * Properties of the Kik adapter *)

Module AdapterFacts.
Import JS Adapter.

(** *** The adapter on examples *)

Example constructor_sample :
  constructor sampleImports sampleOptions = ret sampleAdapter.
Proof. reflexivity. Qed.

Example constructor_empty_token :
  exists this,
    constructor sampleImports (set sampleOptions "token" (VStr "")) = ret this
    /\ token this = VNull.
Proof. eexists. split; reflexivity. Qed.

Example constructor_unknown_log_level :
  constructor strictImports (set sampleOptions "logLevel" (VStr "verbose"))
  = throw (Reason (VStr "unknown level verbose")).
Proof. reflexivity. Qed.

Example constructor_without_options :
  constructor sampleImports VUndefined = throw TypeError.
Proof. reflexivity. Qed.

Example connect_after_early_disconnect :
  fst (fst (connect sampleImports
              (snd (fst (disconnect sampleImports sampleAdapter)))))
  = ret (ObservableOf (VObj [("type", VStr "connected");
                             ("serviceID", VStr "svc-kik")])).
Proof. reflexivity. Qed.

Example trailing_slash :
  withTrailingSlash "https://bot.example/kik" = "https://bot.example/kik/"
  /\ withTrailingSlash "https://bot.example/kik/" = "https://bot.example/kik/"
  /\ withoutTrailingSlash "/kik/" = "/kik".
Proof. repeat split. Qed.

Example send_unsupported_type :
  send sampleImports
       (VObj [("to", VObj [("id", VStr "alice")]);
              ("object", VObj [("type", VStr "Audio")])])
       (snd (fst (connect sampleImports sampleAdapter)))
  = (Broken (Error "Only Note, Image, and Video are supported."),
     snd (fst (connect sampleImports sampleAdapter)),
     [SchemaValidate
        (VObj [("to", VObj [("id", VStr "alice")]);
               ("object", VObj [("type", VStr "Audio")])]) "send"]).
Proof. reflexivity. Qed.

Lemma js_or_null_not_empty (x : value) : is_str (js_or x VNull) "" = false.
Proof.
  unfold js_or. destruct (truthy x) eqn:Hx; [|reflexivity].
  destruct x as [| |b|n|s|l|fs]; try reflexivity.
  simpl in Hx |- *. now destruct (s =? "")%string.
Qed.

(** What the constructor has done when it returns an adapter. *)
Lemma constructor_inv (env : Imports) (obj : value) (this : t) :
  constructor env obj = ret this ->
  exists u,
    get obj "webhookURL" = VStr u
    /\ truthy obj = true
    /\ serviceID this = js_or (get obj "serviceID") (VStr (uuid_v4 env))
    /\ logLevel this = js_or (get obj "logLevel") (VStr "info")
    /\ token this = js_or (js_and obj (get obj "token")) VNull
    /\ username this = js_or (get obj "username") (VStr "SMS")
    /\ storeUsers this = []
    /\ webhookURL this = withTrailingSlash u
    /\ connected this = false /\ session this = None /\ router this = []
    /\ (truthy (get obj "http") = true -> webhookServer this <> None)
    /\ (truthy (get obj "http") = false -> webhookServer this = None).
Proof.
  unfold constructor. rewrite js_or_null_not_empty.
  unfold prop. destruct (isNil obj); [discriminate|].
  cbv beta iota delta [ret throw].
  destruct (get obj "webhookURL") as [| | | |u| |] eqn:Hu; try discriminate.
  assert (Ht : truthy obj = true)
    by (destruct obj; try discriminate; reflexivity).
  destruct (Parser_new env _ _ _); [|discriminate].
  destruct (Logger_new env _ _); [|discriminate].
  destruct (Router_new env); [|discriminate].
  cbv beta iota delta [construct ret throw].
  destruct (truthy (get obj "http")).
  - destruct (WebHookServer_new env _ _); [|discriminate].
    cbv beta iota. intros H. injection H as <-. exists u. simpl.
    repeat split; try discriminate; unfold js_and; now rewrite Ht.
  - intros H. injection H as <-. exists u. simpl.
    repeat split; try discriminate; unfold js_and; now rewrite Ht.
Qed.

(** What the constructor can throw: a TypeError of its own, or what one of
    the constructors it calls throws. *)
Lemma constructor_throws (env : Imports) (obj : value) (e : js_error) :
  constructor env obj = throw e ->
  e = TypeError \/ exists thrown, e = Reason thrown.
Proof.
  unfold constructor. rewrite js_or_null_not_empty.
  unfold prop. destruct (isNil obj).
  { intros H. injection H as <-. now left. }
  cbv beta iota delta [ret throw].
  destruct (get obj "webhookURL") as [| | | |u| |];
    try (intros H; injection H as <-; now left).
  destruct (Parser_new env _ _ _);
    [|intros H; injection H as <-; right; eauto].
  destruct (Logger_new env _ _);
    [|intros H; injection H as <-; right; eauto].
  destruct (Router_new env);
    [|intros H; injection H as <-; right; eauto].
  cbv beta iota delta [construct ret throw].
  destruct (truthy (get obj "http")); [|discriminate].
  destruct (WebHookServer_new env _ _);
    [discriminate | intros H; injection H as <-; right; eauto].
Qed.

(** C9.  For every options value the constructor never throws
    'Token should exist.': the token is [obj && obj.token || null], so an
    empty-string token has become null before it is compared with the empty
    string, and the adapter that is built never holds the empty string. *)
Theorem constructor_token_error_unreachable (env : Imports) (obj : value) :
  constructor env obj <> throw (Error "Token should exist.")
  /\ (get obj "token" = VStr "" ->
      js_or (js_and obj (get obj "token")) VNull = VNull)
  /\ (forall this, constructor env obj = ret this ->
        token this = js_or (js_and obj (get obj "token")) VNull
        /\ token this <> VStr "").
Proof.
  split; [|split].
  - intros H. apply constructor_throws in H.
    destruct H as [H | [thrown H]]; discriminate.
  - intros Ht. unfold js_and, js_or. rewrite Ht.
    destruct (truthy obj) eqn:Ho; [reflexivity|].
    rewrite Ho. destruct obj; simpl in *; try discriminate; try reflexivity.
  - intros this H.
    destruct (constructor_inv env obj this H)
      as (u & _ & _ & _ & _ & Htok & _).
    split; [exact Htok|].
    intros Heq.
    pose proof (js_or_null_not_empty (js_and obj (get obj "token"))) as Hn.
    rewrite <- Htok, Heq in Hn. discriminate.
Qed.

Lemma preserves_bind {A B : Type} (m : action A) (k : A -> action B) :
  preserves m -> (forall a, preserves (k a)) -> preserves (bind m k).
Proof.
  intros Hm Hk this. unfold bind.
  specialize (Hm this). destruct (m this) as [[p this1] tr1]. simpl in Hm.
  destruct p as [a|e]; simpl; [|exact Hm].
  specialize (Hk a this1). destruct (k a this1) as [[q this2] tr2].
  simpl in *. congruence.
Qed.

Lemma preserves_call {A : Type} (ev : effect) (p : promise A) :
  preserves (call ev p).
Proof. intros this. reflexivity. Qed.

Lemma preserves_pure {A : Type} (a : A) : preserves (pure a).
Proof. intros this. reflexivity. Qed.

Lemma preserves_fail {A : Type} (e : js_error) : preserves (@fail A e).
Proof. intros this. reflexivity. Qed.

Lemma preserves_liftC {A : Type} (c : completion A) : preserves (liftC c).
Proof. intros this. reflexivity. Qed.

Create HintDb adapter.
#[local] Hint Resolve preserves_call preserves_pure preserves_fail
  preserves_liftC : adapter.

Lemma preserves_user (env : Imports) (key : value) (cache : bool) :
  preserves (user env key cache).
Proof.
  intros this. unfold user.
  destruct (session this); [|reflexivity].
  destruct (cache && truthy (Map_get key (storeUsers this))); [reflexivity|].
  revert this. apply preserves_bind; auto with adapter.
  intros profile. apply preserves_bind; auto with adapter.
  intros data this. reflexivity.
Qed.

Lemma preserves_onIncoming (env : Imports) (incoming : value) :
  preserves (onIncoming env incoming).
Proof.
  unfold onIncoming, tell.
  apply preserves_bind; [apply preserves_user|]. intros ui.
  apply preserves_bind; [auto with adapter|]. intros normalized.
  apply preserves_bind; [auto with adapter|]. intros parsed.
  apply preserves_bind; [auto with adapter|]. intros validated.
  apply preserves_bind; [|auto with adapter].
  destruct (truthy validated); auto with adapter.
Qed.

Lemma preserves_send (env : Imports) (data : value) :
  preserves (send env data).
Proof.
  unfold send.
  apply preserves_bind; [auto with adapter|]. intros _.
  apply preserves_bind; [auto with adapter|]. intros buttons.
  destruct (buildMessage data buttons) as [btns [content|]];
    [|auto with adapter].
  intros this. destruct (session this); [|reflexivity].
  revert this. apply preserves_bind; [auto with adapter|].
  intros _ this. reflexivity.
Qed.

(** Once the flag is set, no method changes the flag, the session, the
    router or the service identifier. *)
Lemma step_connected (env : Imports) (this : t) (m : method) :
  connected this = true -> link (step env this m) = link this.
Proof.
  intros Hc. destruct m; simpl; try reflexivity.
  - unfold connect. rewrite Hc. reflexivity.
  - unfold disconnect, link.
    destruct this as [sid ll tok un su wu c se ro ws]. simpl in *. subst c.
    destruct ws; reflexivity.
  - apply preserves_onIncoming.
  - apply preserves_send.
Qed.

Lemma run_connected (env : Imports) (calls : list method) (this : t) :
  connected this = true -> link (run env this calls) = link this.
Proof.
  revert this. induction calls as [|m calls IH]; intros this Hc; [reflexivity|].
  simpl. pose proof (step_connected env this m Hc) as Hs.
  rewrite IH; [exact Hs|].
  unfold link in Hs. congruence.
Qed.

Lemma connect_success_sets_flag (env : Imports) (this this1 : t)
      (obs : value) (tr : list effect) :
  connect env this = (ret (ObservableOf obs), this1, tr) ->
  connected this1 = true.
Proof.
  unfold connect. destruct (connected this) eqn:Hc.
  - intros H. injection H as _ <- _. exact Hc.
  - destruct (_ || _); [discriminate|].
    destruct (if truthy _ then _ else _) as [opts|e]; [|discriminate].
    destruct (KikBot env opts); [|discriminate].
    intros H. injection H as _ <- _. reflexivity.
Qed.

(** C8.  [disconnect] leaves the connected flag true.  Hence, once a
    [connect] has succeeded, after any sequence of further calls (disconnect
    included) the flag is still true, and [connect] returns
    [{type: 'connected', serviceID}] at once: it makes no call, and the
    session and the router's routes are the ones of the first connection. *)
Theorem connected_flag_never_cleared
        (env : Imports) (this this1 : t) (obs : value) (tr : list effect)
        (calls : list method) :
  connect env this = (ret (ObservableOf obs), this1, tr) ->
  (forall a, connected (snd (fst (disconnect env a))) = true)
  /\ connected (run env this1 calls) = true
  /\ connect env (run env this1 calls) =
       (ret (ObservableOf
               (VObj [("type", VStr "connected");
                      ("serviceID", serviceID this1)])),
        run env this1 calls, [])
  /\ session (run env this1 calls) = session this1
  /\ router (run env this1 calls) = router this1.
Proof.
  intros H. apply connect_success_sets_flag in H.
  pose proof (run_connected env calls this1 H) as Hl.
  unfold link in Hl. injection Hl as Hsid Hc Hs Hr.
  split.
  - intros a. unfold disconnect. destruct (webhookServer _); reflexivity.
  - repeat split; try congruence.
    unfold connect. rewrite Hc, H. unfold connectedEvent, serviceId.
    now rewrite Hsid.
Qed.

Lemma connected_flag_never_cleared_witness :
  let this1 := snd (fst (connect sampleImports sampleAdapter)) in
  let this2 := run sampleImports this1 [Disconnect; Send sampleNote; Connect] in
  connected this2 = true
  /\ connect sampleImports this2 =
       (ret (ObservableOf
               (VObj [("type", VStr "connected");
                      ("serviceID", VStr "svc-kik")])), this2, [])
  /\ session this2 = session this1.
Proof.
  destruct (connected_flag_never_cleared sampleImports sampleAdapter
              _ _ _ [Disconnect; Send sampleNote; Connect] eq_refl)
    as (_ & Hc & Hconnect & Hs & _).
  exact (conj Hc (conj Hconnect Hs)).
Defined.

(** [user] calls nothing but the profile lookup. *)
Lemma user_trace (env : Imports) (key : value) (cache : bool) (this : t) :
  snd (user env key cache this) = []
  \/ snd (user env key cache this) = [GetUserProfile key].
Proof.
  unfold user. destruct (session this); [|now left].
  destruct (cache && truthy _); [now left|].
  right. unfold bind, call, liftC.
  destruct (session_getUserProfile env key) as [profile|e]; [|reflexivity].
  destruct (settle _); reflexivity.
Qed.

(** Membership in a trace [pre ++ rest] whose prefix holds profile lookups
    only and whose rest is explicit. *)
Ltac split_trace Hin Hno Hnv :=
  apply in_app_or in Hin; destruct Hin as [Hin|Hin];
  [ exfalso; solve [eapply Hno; eauto | eapply Hnv; eauto]
  | simpl in Hin;
    repeat (destruct Hin as [Hin|Hin]; try discriminate);
    try contradiction ].

(** C2.  On every incoming message the middleware registered by [listen]
    calls [observer.next] only as the step right after [Parser.normalize],
    [Parser.parse] and [Parser.validate], each fed the previous one's
    result, and only with the truthy value [validate] resolved to; when
    [validate] resolves to null nothing is emitted; and when every step
    resolves and the validated value is truthy, it is emitted. *)
Theorem listen_emits_after_pipeline
        (env : Imports) (this : t) (incoming : value) :
  let tr := snd (onIncoming env incoming this) in
  (forall v, In (ObserverNext v) tr ->
     exists pre userInformation normalized parsed,
       tr = (pre ++ [ ParserNormalize incoming userInformation;
                      ParserParse normalized; ParserValidate parsed;
                      ObserverNext v; Next ])%list
       /\ (pre = [] \/ pre = [GetUserProfile (get incoming "from")])
       /\ parser_normalize env incoming userInformation = Fulfilled normalized
       /\ parser_parse env normalized = Fulfilled parsed
       /\ parser_validate env parsed = Fulfilled v
       /\ truthy v = true)
  /\ (forall parsed,
        In (ParserValidate parsed) tr ->
        parser_validate env parsed = Fulfilled VNull ->
        forall v, ~ In (ObserverNext v) tr)
  /\ (forall userInformation normalized parsed v,
        fst (fst (user env (get incoming "from") true this))
          = Fulfilled userInformation ->
        parser_normalize env incoming userInformation = Fulfilled normalized ->
        parser_parse env normalized = Fulfilled parsed ->
        parser_validate env parsed = Fulfilled v ->
        truthy v = true ->
        In (ObserverNext v) tr).
Proof.
  unfold onIncoming, bind, call, tell, pure.
  pose proof (user_trace env (get incoming "from") true this) as Hpre.
  destruct (user env (get incoming "from") true this) as [[pu this1] pre].
  simpl in Hpre.
  assert (Hno : forall v, ~ In (ObserverNext v) pre).
  { intros v Hin. destruct Hpre as [-> | ->]; simpl in Hin;
      [contradiction | destruct Hin as [Hin|[]]; discriminate]. }
  assert (Hnv : forall q, ~ In (ParserValidate q) pre).
  { intros v Hin. destruct Hpre as [-> | ->]; simpl in Hin;
      [contradiction | destruct Hin as [Hin|[]]; discriminate]. }
  destruct pu as [ui|e]; simpl.
  2:{ repeat split; intros; try discriminate; exfalso;
        solve [eapply Hno; eauto | eapply Hnv; eauto]. }
  destruct (parser_normalize env incoming ui) as [n|e] eqn:Hn; simpl.
  2:{ repeat split; intros; try congruence; exfalso;
      match goal with H : In _ (_ ++ _)%list |- _ => split_trace H Hno Hnv end. }
  destruct (parser_parse env n) as [p|e] eqn:Hp; simpl.
  2:{ repeat split; intros; try congruence; exfalso;
      match goal with H : In _ (_ ++ _)%list |- _ => split_trace H Hno Hnv end. }
  destruct (parser_validate env p) as [v0|e] eqn:Hv; simpl.
  2:{ repeat split; intros; try congruence; exfalso;
      match goal with H : In _ (_ ++ _)%list |- _ =>
        split_trace H Hno Hnv; congruence end. }
  destruct (truthy v0) eqn:Ht; simpl.
  - split; [|split].
    + intros v Hin. split_trace Hin Hno Hnv.
      injection Hin as <-.
      exists pre, ui, n, p. repeat split; auto.
    + intros q Hin Hq v Hv'. split_trace Hin Hno Hnv.
      injection Hin as <-. rewrite Hv in Hq. injection Hq as ->.
      discriminate.
    + intros ui' n' p' v Hu Hn' Hp' Hv' _.
      injection Hu as <-. rewrite Hn in Hn'. injection Hn' as <-.
      rewrite Hp in Hp'. injection Hp' as <-.
      rewrite Hv in Hv'. injection Hv' as <-.
      apply in_or_app. right. simpl. auto.
  - split; [|split].
    + intros v Hin. exfalso. split_trace Hin Hno Hnv.
    + intros q _ _ v Hin. split_trace Hin Hno Hnv.
    + intros ui' n' p' v Hu Hn' Hp' Hv' Htv.
      injection Hu as <-. rewrite Hn in Hn'. injection Hn' as <-.
      rewrite Hp in Hp'. injection Hp' as <-.
      rewrite Hv in Hv'. injection Hv' as <-. congruence.
Qed.

Lemma buildMessage_supported (data btns : value) :
  supported data = true ->
  exists content, buildMessage data btns = (btns, Some content).
Proof.
  unfold supported, buildMessage.
  destruct (is_str _ "Image") eqn:Hi; simpl.
  - intros _. destruct (is_str _ "Video"), (truthy (js_or _ (VStr ""))),
      (truthy (js_or _ _)); eexists; reflexivity.
  - destruct (is_str _ "Video") eqn:Hv; simpl.
    + intros _. destruct (truthy (js_or _ (VStr ""))), (truthy (js_or _ _));
        eexists; reflexivity.
    + destruct (is_str _ "Note"); [eexists; reflexivity | discriminate].
Qed.

Lemma buildMessage_unsupported (data btns : value) :
  supported data = false -> buildMessage data btns = (VNull, None).
Proof.
  unfold supported, buildMessage.
  destruct (is_str _ "Note"), (is_str _ "Image"), (is_str _ "Video");
    simpl; try discriminate; reflexivity.
Qed.

Lemma filterButtons_returns (items : list value) :
  List.forallb (fun a => negb (isNil a)) items = true ->
  exists buttons, filterButtons items = ret buttons.
Proof.
  induction items as [|a items IH]; simpl; intros H; [eexists; reflexivity|].
  apply andb_prop in H. destruct H as [Ha Hrest].
  destruct (IH Hrest) as [kept Hk]. unfold prop.
  destruct (isNil a); [discriminate|].
  cbv beta iota delta [ret throw]. rewrite Hk. cbv beta iota delta [ret].
  eexists. reflexivity.
Qed.

Lemma filterButtonFields_returns (fields : list (string * value)) :
  List.forallb (fun kv => negb (isNil (snd kv))) fields = true ->
  exists buttons, filterButtonFields fields = ret buttons.
Proof.
  induction fields as [|[k a] fields IH]; simpl; intros H;
    [eexists; reflexivity|].
  apply andb_prop in H. destruct H as [Ha Hrest].
  destruct (IH Hrest) as [kept Hk]. unfold prop.
  destruct (isNil a); [discriminate|].
  cbv beta iota delta [ret throw]. rewrite Hk. cbv beta iota delta [ret].
  eexists. reflexivity.
Qed.

(** Without a null entry the button list is built. *)
Lemma buttonsOf_returns (attachments : value) :
  noNullAttachment attachments = true ->
  exists btns, buttonsOf attachments = ret btns.
Proof.
  unfold noNullAttachment, buttonsOf.
  destruct (js_or attachments (VArr [])) as [| | | | |items|fields];
    try (intros _; eexists; reflexivity).
  - intros H. destruct (filterButtons_returns items H) as [l ->].
    eexists. reflexivity.
  - intros H. destruct (filterButtonFields_returns fields H) as [l ->].
    eexists. reflexivity.
Qed.

(** C7, the claim as stated fails: an adapter that was built but never
    connected has no session, so sending a valid Note rejects with a
    TypeError instead of resolving with [{type: 'sent', serviceID}]. *)
Lemma send_note_without_session_rejects :
  constructor sampleImports sampleOptions = ret sampleAdapter
  /\ R_path ["object"; "type"] sampleSendNote = VStr "Note"
  /\ schemas sampleImports sampleSendNote "send" = Fulfilled tt
  /\ send sampleImports sampleSendNote sampleAdapter =
       (Broken TypeError, sampleAdapter, [SchemaValidate sampleSendNote "send"]).
Proof. repeat split. Qed.

(** C7, amended.  [send] validates its input against the 'send' schema
    before anything else, and a rejected validation is the result, with no
    other call made.  When validation passes and [object.attachment] holds
    no null or undefined entry, an input whose object type is Note, Image
    or Video resolves with [{type: 'sent', serviceID}] provided a session
    exists and its [send] call resolves, that call being the only one after
    validation, and every other object type is rejected with 'Only Note,
    Image, and Video are supported.'.  For every other object type no
    session [send] call is made in any case. *)
Theorem send_validates_then_sends (env : Imports) (this : t) (data : value) :
  let toID := js_or (R_path ["to"; "id"] data) (R_path ["to"; "name"] data) in
  let attachments := R_path ["object"; "attachment"] data in
  let result := send env data this in
  (exists rest, snd result = SchemaValidate data "send" :: rest)
  /\ (forall e, schemas env data "send" = Broken e ->
        result = (Broken e, this, [SchemaValidate data "send"]))
  /\ (supported data = true ->
      schemas env data "send" = Fulfilled tt ->
      noNullAttachment attachments = true ->
      session this <> None ->
      (forall content, session_send env content toID = Fulfilled tt) ->
      exists content,
        result =
          (Fulfilled (VObj [("type", VStr "sent");
                            ("serviceID", serviceID this)]),
           this,
           [SchemaValidate data "send"; SessionSend content toID]))
  /\ (supported data = false ->
      (forall content to, ~ In (SessionSend content to) (snd result))
      /\ (schemas env data "send" = Fulfilled tt ->
          noNullAttachment attachments = true ->
          result =
            (Broken (Error "Only Note, Image, and Video are supported."),
             this, [SchemaValidate data "send"]))).
Proof.
  cbv beta iota zeta delta [send bind call liftC fail].
  pose proof (buttonsOf_returns (R_path ["object"; "attachment"] data))
    as Hclean.
  destruct (schemas env data "send") as [[]|e0] eqn:Hs.
  2:{ split; [|split; [|split; [|split]]].
      - eexists; reflexivity.
      - intros e He. congruence.
      - discriminate.
      - intros content to [Hin|[]]. discriminate.
      - discriminate. }
  destruct (buttonsOf (R_path ["object"; "attachment"] data))
    as [buttons|eb] eqn:Hb; cbv beta iota zeta delta [settle].
  2:{ split; [|split; [|split; [|split]]].
      - eexists; reflexivity.
      - discriminate.
      - intros _ _ Hc. destruct (Hclean Hc) as [btns Hbt]. discriminate.
      - intros content to [Hin|[]]. discriminate.
      - intros _ Hc. destruct (Hclean Hc) as [btns Hbt]. discriminate. }
  split; [|split; [|split]].
  - destruct (buildMessage data buttons) as [btns [content|]];
      [destruct (session this);
         [destruct (session_send env _ _)|] |];
      eexists; reflexivity.
  - discriminate.
  - intros Hsup _ _ Hsess Hsend.
    destruct (buildMessage_supported data buttons Hsup) as [content ->].
    destruct (session this) as [sess|]; [|congruence].
    rewrite Hsend. eexists. reflexivity.
  - intros Hsup. rewrite (buildMessage_unsupported data buttons Hsup).
    split.
    + intros content to [Hin|[]]. discriminate.
    + reflexivity.
Qed.

Lemma send_validates_then_sends_witness :
  let this := snd (fst (connect sampleImports sampleAdapter)) in
  supported sampleSendNote = true
  /\ noNullAttachment (R_path ["object"; "attachment"] sampleSendNote) = true
  /\ session this <> None
  /\ exists content,
       send sampleImports sampleSendNote this =
         (Fulfilled (VObj [("type", VStr "sent");
                           ("serviceID", serviceID this)]),
          this,
          [SchemaValidate sampleSendNote "send";
           SessionSend content (VStr "alice")]).
Proof.
  intros this.
  assert (Hsess : session this <> None) by discriminate.
  split; [reflexivity|]. split; [reflexivity|]. split; [exact Hsess|].
  destruct (send_validates_then_sends sampleImports this sampleSendNote)
    as (_ & _ & Hsent & _).
  apply Hsent.
  - reflexivity.
  - reflexivity.
  - reflexivity.
  - exact Hsess.
  - reflexivity.
Defined.

End AdapterFacts.

(** * Properties of the Slack parser *)

Module ParserFacts.
Import JS Parser.

(** *** The parser on examples *)

Example ts2Timestamp_slack :
  ts2Timestamp sampleImports (VStr "1355517523.000005") = ret (Num 1355517523).
Proof. reflexivity. Qed.

Example ts2Timestamp_not_a_string :
  ts2Timestamp sampleImports (VNum (Num 1355517523)) = throw TypeError.
Proof. reflexivity. Qed.

Example parse_without_text :
  parse sampleImports sampleParser (sampleWorld 0 "id")
        (VObj [("ts", VStr "1355517523.000005")]) = Resolved VNull.
Proof. reflexivity. Qed.

Example parse_note :
  parse sampleImports sampleParser (sampleWorld 0 "id") sampleTimed =
  Resolved (VObj
    [ ("@context", VStr "https://www.w3.org/ns/activitystreams");
      ("generator", VObj [ ("id", VStr "svc-1"); ("name", VStr "slack");
                           ("type", VStr "Service") ]);
      ("published", VNum (Num 1355517523));
      ("type", VStr "Create");
      ("actor", VObj [ ("id", VStr "U1"); ("name", VStr "ann");
                       ("type", VStr "Person") ]);
      ("target", VObj [ ("id", VStr "C1"); ("name", VStr "C1");
                        ("type", VStr "Group") ]);
      ("object", VObj [ ("content", VStr "hello");
                        ("id", VStr "1355517523.000005");
                        ("type", VStr "Note") ]) ]).
Proof. reflexivity. Qed.

Example parse_video_attachment :
  exists as2,
    parse sampleImports sampleParser (sampleWorld 0 "id")
      (VObj [ ("text", VStr "see this"); ("ts", VStr "1355517523.000005");
              ("file", VObj [ ("mimetype", VStr "video/mp4");
                              ("name", VStr "clip.mp4");
                              ("permalink_public", VStr "https://files.example/clip");
                              ("initial_comment", VObj [("comment", VStr "look")]) ]) ])
      = Resolved as2
    /\ get as2 "object" =
         VObj [ ("content", VStr "look"); ("id", VStr "1355517523.000005");
                ("mediaType", VStr "video/mp4"); ("name", VStr "clip.mp4");
                ("type", VStr "Video");
                ("url", VStr "https://files.example/clip") ].
Proof. eexists. split; reflexivity. Qed.

Example parse_attachment_without_comment :
  parse sampleImports sampleParser (sampleWorld 0 "id")
    (VObj [ ("text", VStr "see this");
            ("file", VObj [("mimetype", VStr "image/png")]) ])
  = Rejected TypeError.
Proof. reflexivity. Qed.

Example validate_without_type :
  validate sampleImports (VObj [("published", VNum (Num 1))]) = Resolved VNull.
Proof. reflexivity. Qed.

Example dropNulls_nested :
  dropNulls (VObj [ ("a", VNull);
                    ("b", VArr [VNull; VStr "x"; VObj [("c", VUndefined)]]) ])
  = VObj [("b", VArr [VStr "x"; VObj []])].
Proof. reflexivity. Qed.

(** *** Reading and writing object fields *)

Lemma lookup_assign_same (k : string) (v : value) (fs : list (string * value)) :
  lookup k (assign k v fs) = Some v.
Proof.
  induction fs as [|[k' v'] fs IH]; simpl.
  - now rewrite String.eqb_refl.
  - destruct (k' =? k)%string eqn:E; simpl.
    + now rewrite String.eqb_refl.
    + now rewrite E.
Qed.

Lemma lookup_assign_other (k k' : string) (v : value)
      (fs : list (string * value)) :
  k <> k' -> lookup k' (assign k v fs) = lookup k' fs.
Proof.
  intros Hne. induction fs as [|[k0 v0] fs IH]; simpl.
  - apply String.eqb_neq in Hne. now rewrite Hne.
  - destruct (k0 =? k)%string eqn:E; simpl.
    + apply String.eqb_eq in E. subst k0.
      apply String.eqb_neq in Hne. now rewrite Hne.
    + now rewrite IH.
Qed.

Lemma get_set_same (o : value) (k : string) (v : value) :
  isObject o -> get (set o k v) k = v.
Proof.
  destruct o; simpl; try contradiction. intros _.
  now rewrite lookup_assign_same.
Qed.

Lemma get_set_other (o : value) (k k' : string) (v : value) :
  k <> k' -> get (set o k v) k' = get o k'.
Proof.
  intros Hne. destruct o; simpl; try reflexivity.
  now rewrite lookup_assign_other.
Qed.

Lemma has_field_set_other (o : value) (k k' : string) (v : value) :
  k <> k' -> has_field (set o k v) k' = has_field o k'.
Proof.
  intros Hne. destruct o; simpl; try reflexivity.
  now rewrite lookup_assign_other.
Qed.

Lemma isObject_set (o : value) (k : string) (v : value) :
  isObject o -> isObject (set o k v).
Proof. destruct o; simpl; auto. Qed.

Lemma has_field_get_undefined (o : value) (k : string) :
  has_field o k = false -> get o k = VUndefined.
Proof.
  destruct o; simpl; try reflexivity.
  destruct (lookup k fields); [discriminate | reflexivity].
Qed.

(** A value with a string-valued field is a non-empty object. *)
Lemma get_string_object (o : value) (k s : string) :
  get o k = VStr s ->
  isObject o /\ negb (truthy o) || R_isEmpty o = false.
Proof.
  destruct o; simpl; try discriminate.
  destruct fields; simpl; [discriminate|]. auto.
Qed.

(** *** The shape of what [parse] builds *)

Lemma createActivityStream_inv (lib : Imports) (this : t) (w : World)
      (normalized as0 : value) :
  createActivityStream lib this w normalized = ret as0 ->
  let ts := js_or (get normalized "thread_ts") (get normalized "ts") in
  exists published,
    as0 = baseStream this published
    /\ (truthy ts = true -> ts2Timestamp lib ts = ret published)
    /\ (truthy ts = false -> published = Num (now w / 1000)).
Proof.
  intros H ts. unfold createActivityStream in H. fold ts in H.
  destruct (truthy ts) eqn:Ht.
  - destruct (ts2Timestamp lib ts) as [p|e]; [|discriminate].
    injection H as <-. exists p. repeat split; congruence.
  - injection H as <-. eexists. repeat split; congruence.
Qed.

Lemma sameEnvelope_set (a v : value) : sameEnvelope a (set a "object" v).
Proof. intros k Hk. apply get_set_other. congruence. Qed.

Lemma sameEnvelope_trans (a b c : value) :
  sameEnvelope a b -> sameEnvelope b c -> sameEnvelope a c.
Proof. intros Hab Hbc k Hk. rewrite Hbc, Hab; auto. Qed.

Lemma plainObject_set (as2 : value) (fields : list (string * value)) :
  isObject as2 -> lookup "context" fields = None ->
  plainObject (set as2 "object" (VObj fields)).
Proof.
  intros Ho Hl. split; [now apply isObject_set|]. right.
  rewrite get_set_same by assumption. simpl. now rewrite Hl.
Qed.

Lemma extractObject_shape (lib : Imports) (w : World)
      (normalized as2 as3 : value) :
  isObject as2 -> has_field as2 "object" = false ->
  extractObject lib w normalized as2 = Fulfilled as3 ->
  plainObject as3 /\ sameEnvelope as2 as3.
Proof.
  intros Ho Hf. unfold extractObject.
  destruct (get normalized "text") as [| | | |text| |]; try discriminate.
  destruct (isUrl lib _).
  - destruct (fileInfo w _) as [infos|e]; [|discriminate]. simpl.
    unfold prop. destruct (isNil infos); [discriminate|].
    destruct (get infos "mimetype"); try discriminate.
    simpl. intros H. injection H as <-.
    split; [now apply plainObject_set | apply sameEnvelope_set].
  - destruct (truthy (get normalized "file")).
    + destruct (parseFile (get normalized "file")) as [a|e]; [|discriminate].
      destruct (truthy a).
      * destruct (truthy (get a "preview")); simpl; intros H;
          injection H as <-.
        -- rewrite get_set_same by assumption. simpl set at 2. split.
           ++ apply plainObject_set; [now apply isObject_set | reflexivity].
           ++ eapply sameEnvelope_trans; apply sameEnvelope_set.
        -- split; [now apply plainObject_set | apply sameEnvelope_set].
      * simpl. intros H. injection H as <-. split.
        -- split; [assumption|]. left. now apply has_field_get_undefined.
        -- intros k _. reflexivity.
    + intros H. injection H as <-. split.
      * split; [assumption|]. left. now apply has_field_get_undefined.
      * intros k _. reflexivity.
Qed.

Lemma attachNoteAndContext_shape (w : World) (normalized as3 as4 : value) :
  plainObject as3 ->
  attachNoteAndContext w normalized as3 = Fulfilled as4 ->
  sameEnvelope as3 as4
  /\ (is_str (get normalized "subtype") "interactive_message" = true ->
      truthy (get as4 "object") = true ->
      get (get as4 "object") "context" = callbackContext normalized)
  /\ (is_str (get normalized "subtype") "interactive_message" = false ->
      has_field (get as4 "object") "context" = false).
Proof.
  intros Hp. unfold attachNoteAndContext.
  set (noted := if negb (truthy (get as3 "object"))
                   && negb (R_isEmpty (get normalized "content"))
                then set as3 "object" _ else as3).
  assert (Hn : plainObject noted /\ sameEnvelope as3 noted).
  { subst noted. destruct (_ && _).
    - split; [apply plainObject_set; [apply Hp | reflexivity]
             | apply sameEnvelope_set].
    - split; [assumption | intros k _; reflexivity]. }
  destruct Hn as [[Hno Hnf] Hne].
  destruct (is_str (get normalized "subtype") "interactive_message").
  - destruct (truthy (get noted "object")) eqn:Ht; simpl;
      intros H; injection H as <-.
    + split; [eapply sameEnvelope_trans; [exact Hne | apply sameEnvelope_set]|].
      split; [|discriminate]. intros _ _.
      rewrite get_set_same by assumption.
      destruct Hnf as [Hu | [Hobj _]]; [rewrite Hu in Ht; discriminate|].
      now rewrite get_set_same.
    + split; [assumption|]. split; [congruence | discriminate].
  - rewrite andb_false_r. intros H. injection H as <-.
    split; [assumption|]. split; [discriminate|]. intros _.
    destruct Hnf as [-> | [_ Hc]]; [reflexivity | exact Hc].
Qed.

(** What a resolved [parse] went through. *)
Lemma parse_resolved (lib : Imports) (this : t) (w : World)
      (event as2 : value) :
  parse lib this w event = Resolved as2 ->
  let normalized := cleanNulls lib event in
  as2 = VNull
  \/ exists published as3,
       truthy (get normalized "text") = true
       /\ createActivityStream lib this w normalized
            = ret (baseStream this published)
       /\ plainObject as3
       /\ sameEnvelope (addressed this published normalized) as3
       /\ extractObject lib w normalized
            (addressed this published normalized) = Fulfilled as3
       /\ attachNoteAndContext w normalized as3 = Fulfilled as2.
Proof.
  intros H normalized. unfold parse in H. fold normalized in H.
  destruct (negb (truthy normalized) || R_isEmpty normalized);
    [left; congruence|].
  destruct (truthy (get normalized "text")) eqn:Htext;
    [|left; simpl in H; congruence].
  simpl in H.
  destruct (createActivityStream lib this w normalized) as [as0|e] eqn:Hc;
    [|discriminate].
  destruct (createActivityStream_inv _ _ _ _ _ Hc) as (p & -> & _).
  destruct (extractObject lib w normalized _) as [as3|e] eqn:He;
    [|discriminate].
  simpl in H.
  destruct (attachNoteAndContext w normalized as3) as [as4|e] eqn:Ha;
    [|discriminate].
  injection H as <-. right. exists p, as3.
  pose proof He as Hshape.
  apply extractObject_shape in Hshape; [|exact I|reflexivity].
  destruct Hshape as [Hp Hs].
  repeat split; try assumption; apply Hp.
Qed.

(** C6.  When [parse] resolves, and with [normalized] the null-cleaned
    message: if the subtype is 'interactive_message' and the result has an
    object, that object's context is [{content: callback_id + '#' +
    response_url, name: 'interactive_message_callback', type: 'Object'}];
    for every other subtype the object has no context field. *)
Theorem parse_interactive_context (lib : Imports) (this : t) (w : World)
        (event as2 : value) :
  parse lib this w event = Resolved as2 ->
  let normalized := cleanNulls lib event in
  (get normalized "subtype" = VStr "interactive_message" ->
   truthy (get as2 "object") = true ->
   get (get as2 "object") "context" =
     VObj
       [ ("content", VStr (to_string (get normalized "callback_id") ++ "#"
                           ++ to_string (get normalized "response_url")));
         ("name", VStr "interactive_message_callback");
         ("type", VStr "Object") ])
  /\ (get normalized "subtype" <> VStr "interactive_message" ->
      has_field (get as2 "object") "context" = false).
Proof.
  intros H normalized.
  destruct (parse_resolved _ _ _ _ _ H) as [-> | (p & as3 & _ & _ & Hp & _ & _ & Ha)].
  { split; [discriminate | reflexivity]. }
  fold normalized in Ha.
  destruct (attachNoteAndContext_shape _ _ _ _ Hp Ha) as (_ & Hyes & Hno).
  split.
  - intros Hsub. apply Hyes. now rewrite Hsub.
  - intros Hsub. apply Hno.
    destruct (get normalized "subtype"); try reflexivity.
    simpl. destruct (s =? "interactive_message")%string eqn:E; [|reflexivity].
    apply String.eqb_eq in E. congruence.
Qed.

Lemma parse_interactive_context_witness :
  exists as2,
    parse sampleImports sampleParser (sampleWorld 0 "id") sampleInteractive
      = Resolved as2
    /\ get (get as2 "object") "context" =
         VObj
           [ ("content", VStr "cb42#https://hooks.example/r");
             ("name", VStr "interactive_message_callback");
             ("type", VStr "Object") ].
Proof.
  eexists. split; [reflexivity|].
  apply (parse_interactive_context sampleImports sampleParser
           (sampleWorld 0 "id") sampleInteractive _ eq_refl);
    reflexivity.
Defined.

(** *** Timestamps *)

Lemma digit_nonneg (c : ascii) (d : Z) : digit c = Some d -> 0 <= d.
Proof.
  unfold digit. destruct (_ && _) eqn:E; [|discriminate].
  intros H. injection H as <-. apply andb_prop in E. destruct E as [E _].
  apply Z.leb_le in E. lia.
Qed.

Lemma digitsFrom_nonneg (s : string) (acc z : Z) :
  0 <= acc -> digitsFrom acc s = Some z -> 0 <= z.
Proof.
  revert acc. induction s as [|c s IH]; simpl; intros acc Hacc H.
  - injection H as <-. exact Hacc.
  - destruct (digit c) as [d|] eqn:Hd; [|discriminate].
    apply digit_nonneg in Hd. eapply IH; [|exact H]. lia.
Qed.

Lemma decimal_nonneg (s : string) (z : Z) : decimal s = Some z -> 0 <= z.
Proof.
  unfold decimal. destruct s; [discriminate|].
  apply digitsFrom_nonneg. lia.
Qed.

Lemma ts2Timestamp_seconds (lib : Imports) (s : string) (z : Z) :
  readsDecimals lib ->
  decimal (beforeDot s) = Some z -> z <= maxSeconds ->
  ts2Timestamp lib (VStr s) = ret (Num z).
Proof.
  unfold maxSeconds. intros Hnum Hd Hz. unfold ts2Timestamp.
  rewrite (Hnum _ _ Hd) by lia.
  apply decimal_nonneg in Hd. simpl. unfold maxTime.
  replace (Z.abs (z * 1000) <=? 8640000000000000) with true
    by (symmetry; apply Z.leb_le; lia).
  simpl. now rewrite Z.div_mul by lia.
Qed.

(** C1, the claim as stated fails: a message whose ts has the integer
    seconds 8640000000001, one past what a Date holds, gets an activity
    stream whose published field is NaN. *)
Lemma published_beyond_date_range :
  decimal (beforeDot "8640000000001.000200") = Some 8640000000001
  /\ get sampleFarFuture "ts" = VStr "8640000000001.000200"
  /\ exists as2,
       parse sampleImports sampleParser (sampleWorld 0 "id") sampleFarFuture
         = Resolved as2
       /\ get as2 "type" = VStr "Create"
       /\ get as2 "published" = VNum NaN.
Proof.
  split; [reflexivity|]. split; [reflexivity|].
  eexists. split; [reflexivity|]. split; reflexivity.
Qed.

(** C1, amended.  Every activity stream that [parse] resolves to carries
    the generator [{id: serviceID, name: generatorName, type: 'Service'}].
    Its published field is the integer seconds of [thread_ts || ts] when
    that is a string whose part before the first dot is a decimal number of
    at most 8640000000000, and [Date.now()] in whole seconds when neither
    field is truthy. *)
Theorem parse_generator_published (lib : Imports) (this : t) (w : World)
        (event as2 : value) :
  readsDecimals lib ->
  parse lib this w event = Resolved as2 ->
  as2 <> VNull ->
  let normalized := cleanNulls lib event in
  let ts := js_or (get normalized "thread_ts") (get normalized "ts") in
  get as2 "generator" =
    VObj [ ("id", VStr (serviceID this));
           ("name", VStr (generatorName this));
           ("type", VStr "Service") ]
  /\ (forall s z,
        ts = VStr s -> decimal (beforeDot s) = Some z -> z <= maxSeconds ->
        get as2 "published" = VNum (Num z))
  /\ (truthy ts = false ->
      get as2 "published" = VNum (Num (now w / 1000))).
Proof.
  intros Hnum H Hnn normalized ts.
  destruct (parse_resolved _ _ _ _ _ H)
    as [-> | (p & as3 & _ & Hc & Hp & Hs & _ & Ha)]; [congruence|].
  fold normalized in Hc, Ha.
  destruct (attachNoteAndContext_shape _ _ _ _ Hp Ha) as (Hs' & _).
  assert (Hg : forall k, k <> "object" -> k <> "actor" -> k <> "target" ->
                         get as2 k = get (baseStream this p) k).
  { intros k Ho Hact Htar. rewrite (Hs' k Ho), (Hs k Ho).
    unfold addressed. rewrite !get_set_other by congruence. reflexivity. }
  destruct (createActivityStream_inv _ _ _ _ _ Hc) as (p' & Hbase & Hyes & Hno).
  fold normalized in Hyes, Hno. fold ts in Hyes, Hno.
  injection Hbase as <-.
  split; [|split].
  - rewrite Hg by discriminate. reflexivity.
  - intros s z Hts Hd Hz. rewrite Hg by discriminate. simpl.
    assert (Htruthy : truthy ts = true).
    { rewrite Hts. simpl. destruct s; [discriminate | reflexivity]. }
    specialize (Hyes Htruthy). rewrite Hts in Hyes.
    rewrite (ts2Timestamp_seconds lib s z Hnum Hd Hz) in Hyes.
    injection Hyes as <-. reflexivity.
  - intros Hf. rewrite Hg by discriminate. simpl. now rewrite (Hno Hf).
Qed.

Lemma sampleImports_readsDecimals : readsDecimals sampleImports.
Proof.
  intros s z Hd _. simpl. unfold digitsToNumber. rewrite Hd.
  destruct s; [discriminate | reflexivity].
Qed.

Lemma parse_generator_published_witness :
  exists as2,
    parse sampleImports sampleParser (sampleWorld 5999 "id") sampleTimed
      = Resolved as2
    /\ get as2 "generator" =
         VObj [ ("id", VStr "svc-1"); ("name", VStr "slack");
                ("type", VStr "Service") ]
    /\ get as2 "published" = VNum (Num 1355517523).
Proof.
  eexists. split; [reflexivity|].
  destruct (parse_generator_published sampleImports sampleParser
              (sampleWorld 5999 "id") sampleTimed _
              sampleImports_readsDecimals eq_refl)
    as (Hg & Hp & _).
  - discriminate.
  - split; [exact Hg|].
    apply (Hp "1355517523.000005"); [reflexivity | reflexivity |].
    unfold maxSeconds. lia.
Defined.

(** *** Determinism *)

(** C4, the claim as stated fails: two runs of [parse] on the same message
    without a timestamp, at different clock readings and with different
    generated identifiers, resolve to different activity streams. *)
Lemma parse_depends_on_clock_and_uuid :
  exists first second,
    parse sampleImports sampleParser (sampleWorld 1000 "id-a") sampleText
      = Resolved first
    /\ parse sampleImports sampleParser (sampleWorld 2000 "id-b") sampleText
         = Resolved second
    /\ get first "published" = VNum (Num 1)
    /\ get second "published" = VNum (Num 2)
    /\ get (get first "object") "id" = VStr "id-a"
    /\ get (get second "object") "id" = VStr "id-b"
    /\ first <> second.
Proof.
  do 2 eexists. repeat split; try reflexivity. discriminate.
Qed.

Lemma messageId_of_timestamp (w : World) (normalized : value) :
  truthy (js_or (get normalized "thread_ts") (get normalized "ts")) = true ->
  messageId w normalized
    = js_or (get normalized "thread_ts") (get normalized "ts").
Proof. intros H. unfold messageId. unfold js_or at 1. now rewrite H. Qed.

(** C4, amended.  On a message that carries a truthy thread_ts or ts and
    whose text, stripped of its first and last character, is not a URL,
    [parse] is deterministic: two runs, whatever the clock, the generated
    identifier and the network answer of each, have the same outcome. *)
Theorem parse_deterministic_with_timestamp
        (lib : Imports) (this : t) (w1 w2 : World) (event : value) :
  let normalized := cleanNulls lib event in
  truthy (js_or (get normalized "thread_ts") (get normalized "ts")) = true ->
  (forall text, get normalized "text" = VStr text ->
                isUrl lib (dropLast (substr1 text)) = false) ->
  parse lib this w1 event = parse lib this w2 event.
Proof.
  intros normalized Hts Hurl. unfold parse. fold normalized.
  destruct (negb (truthy normalized) || R_isEmpty normalized); [reflexivity|].
  destruct (negb (truthy (get normalized "text"))); [reflexivity|].
  assert (Hc : createActivityStream lib this w1 normalized
               = createActivityStream lib this w2 normalized).
  { unfold createActivityStream. now rewrite Hts. }
  rewrite Hc.
  destruct (createActivityStream lib this w2 normalized) as [as0|e];
    [|reflexivity].
  assert (He : forall base, extractObject lib w1 normalized base
                            = extractObject lib w2 normalized base).
  { intros base. unfold extractObject.
    destruct (get normalized "text") as [| | | |text| |] eqn:Ht;
      try reflexivity.
    rewrite (Hurl text eq_refl).
    now rewrite !messageId_of_timestamp by assumption. }
  assert (Ha : forall as3, attachNoteAndContext w1 normalized as3
                           = attachNoteAndContext w2 normalized as3).
  { intros as3. unfold attachNoteAndContext.
    now rewrite !messageId_of_timestamp by assumption. }
  rewrite He.
  destruct (extractObject lib w2 normalized _) as [as3|e]; [|reflexivity].
  unfold andThen. now rewrite Ha.
Qed.

Lemma parse_deterministic_with_timestamp_witness :
  parse sampleImports sampleParser (sampleWorld 1000 "id-a") sampleTimed
  = parse sampleImports sampleParser (sampleWorld 2000 "id-b") sampleTimed.
Proof.
  apply (parse_deterministic_with_timestamp sampleImports sampleParser
           (sampleWorld 1000 "id-a") (sampleWorld 2000 "id-b") sampleTimed).
  - reflexivity.
  - intros text H. injection H as <-. reflexivity.
Defined.

(** *** The object of the activity stream, by kind of message *)

Lemma isObject_addressed (this : t) (p : number) (normalized : value) :
  isObject (addressed this p normalized).
Proof. exact I. Qed.

Lemma addressed_no_object (this : t) (p : number) (normalized : value) :
  has_field (addressed this p normalized) "object" = false.
Proof. reflexivity. Qed.

(** With an object already set, the second callback keeps every field of
    it and at most adds the context. *)
Lemma attach_keeps_object (w : World) (normalized as3 : value) :
  isObject as3 -> isObject (get as3 "object") ->
  exists as4,
    attachNoteAndContext w normalized as3 = Fulfilled as4
    /\ forall k, k <> "context" ->
         get (get as4 "object") k = get (get as3 "object") k
         /\ has_field (get as4 "object") k = has_field (get as3 "object") k.
Proof.
  intros Ho Hobj. unfold attachNoteAndContext.
  assert (Ht : truthy (get as3 "object") = true)
    by (destruct (get as3 "object"); simpl in *; tauto).
  rewrite Ht. cbv beta iota delta [negb andb]. rewrite Ht.
  destruct (is_str _ _); eexists; (split; [reflexivity|]).
  - intros k Hk. rewrite get_set_same by assumption.
    split; [apply get_set_other | apply has_field_set_other]; congruence.
  - intros k _. split; reflexivity.
Qed.

(** Without one, it builds a Note unless the content field is empty. *)
Lemma attach_note (w : World) (normalized as3 : value) :
  isObject as3 -> get as3 "object" = VUndefined ->
  R_isEmpty (get normalized "content") = false ->
  exists as4,
    attachNoteAndContext w normalized as3 = Fulfilled as4
    /\ get (get as4 "object") "type" = VStr "Note"
    /\ get (get as4 "object") "content" = get normalized "text"
    /\ get (get as4 "object") "id" = messageId w normalized.
Proof.
  intros Ho Hu He. unfold attachNoteAndContext.
  rewrite Hu, He. cbv beta iota delta [negb andb truthy].
  rewrite (get_set_same as3) by assumption.
  cbv beta iota delta [andb truthy].
  destruct (is_str _ _); eexists; (split; [reflexivity|]).
  - rewrite get_set_same by (apply isObject_set; assumption). repeat split.
  - rewrite get_set_same by assumption. repeat split.
Qed.

Lemma attach_nothing (w : World) (normalized as3 : value) :
  get as3 "object" = VUndefined ->
  R_isEmpty (get normalized "content") = true ->
  attachNoteAndContext w normalized as3 = Fulfilled as3.
Proof.
  intros Hu He. unfold attachNoteAndContext.
  rewrite Hu, He. cbv beta iota delta [negb andb truthy].
  rewrite Hu. reflexivity.
Qed.

(** An attachment whose mimetype is neither image nor video is skipped. *)
Lemma parseFile_other (file : value) (m : string) :
  get file "mimetype" = VStr m ->
  startsWith m "image" || startsWith m "video" = false ->
  parseFile file = ret VNull.
Proof.
  intros Hm Hp. unfold parseFile, prop.
  destruct (isNil file) eqn:Hn; [destruct file; discriminate|].
  cbv beta iota delta [ret throw]. rewrite Hm.
  cbv beta iota. now rewrite Hp.
Qed.


Lemma parse_with_text (lib : Imports) (this : t) (w : World)
      (event : value) (text : string) (p : number) :
  let normalized := cleanNulls lib event in
  get normalized "text" = VStr text -> text <> "" ->
  createActivityStream lib this w normalized = ret (baseStream this p) ->
  parse lib this w event =
    match (as3 <- extractObject lib w normalized (addressed this p normalized) ;;
           attachNoteAndContext w normalized as3) with
    | Fulfilled as2 => Resolved as2
    | Broken e => Rejected e
    end.
Proof.
  intros normalized Ht Hne Hc. unfold parse. fold normalized.
  destruct (get_string_object _ _ _ Ht) as [_ ->].
  rewrite Ht, Hc.
  assert (Htr : truthy (VStr text) = true).
  { simpl. destruct (text =? "")%string eqn:E; [|reflexivity].
    apply String.eqb_eq in E. contradiction. }
  rewrite Htr. reflexivity.
Qed.









(** C3.  [validate] always resolves.  With [parsed] the null-cleaned event,
    it resolves to null exactly when [parsed] is missing (falsy) or empty,
    or has no type ([!parsed.type]: the field is absent or falsy), or the
    'activity' schema rejects [parsed]; in every other case it resolves to
    [parsed], which then conforms to the 'activity' schema.  So the result
    is null or a validated activity stream. *)
Theorem validate_null_or_activity (lib : Imports) (event : value) :
  let parsed := cleanNulls lib event in
  let missing_or_empty := negb (truthy parsed) || R_isEmpty parsed in
  let lacks_type := negb (truthy (get parsed "type")) in
  (validate lib event = Resolved VNull <->
     missing_or_empty = true
     \/ lacks_type = true
     \/ exists e, schemas lib parsed "activity" = Broken e)
  /\ (validate lib event <> Resolved VNull ->
      validate lib event = Resolved parsed
      /\ schemas lib parsed "activity" = Fulfilled tt)
  /\ (validate lib event = Resolved VNull
      \/ validate lib event = Resolved parsed
         /\ schemas lib parsed "activity" = Fulfilled tt)
  /\ (has_field parsed "type" = false -> validate lib event = Resolved VNull).
Proof.
  intros parsed missing_or_empty lacks_type. unfold validate.
  fold parsed. fold missing_or_empty. fold lacks_type.
  assert (Hne : missing_or_empty = false -> Resolved parsed <> Resolved VNull).
  { intros Hm Heq. injection Heq as Heq. subst missing_or_empty.
    rewrite Heq in Hm. discriminate. }
  assert (Hf : has_field parsed "type" = false -> lacks_type = true).
  { subst lacks_type. unfold has_field, get.
    destruct parsed; try reflexivity.
    destruct (lookup "type" fields); [discriminate | reflexivity]. }
  destruct missing_or_empty eqn:Hm.
  { repeat split; auto; intros; congruence. }
  destruct lacks_type eqn:Ht.
  { repeat split; auto; intros; congruence. }
  destruct (schemas lib parsed "activity") as [[]|e] eqn:Hs.
  - specialize (Hne eq_refl). split; [|split; [|split]].
    + split; [congruence|].
      intros [H|[H|[e H]]]; discriminate.
    + auto.
    + auto.
    + intros H. apply Hf in H. discriminate.
  - split; [|split; [|split]].
    + split; [|reflexivity]. intros _. right. right. eauto.
    + congruence.
    + auto.
    + reflexivity.
Qed.

End ParserFacts.

(** * Further properties of the Kik adapter *)

Module AdapterExtras.
Import JS Adapter AdapterFacts.

(** *** The constructor *)

Lemma get_string_truthy (o : value) (k s : string) :
  get o k = VStr s -> truthy o = true /\ isNil o = false.
Proof. destruct o; simpl; try discriminate. auto. Qed.

Lemma endsWithSlash_app (s : string) : endsWithSlash (s ++ "/") = true.
Proof.
  induction s as [|c s IH]; [reflexivity|].
  simpl. destruct (s ++ "/")%string eqn:E; [|exact IH].
  destruct s; discriminate.
Qed.

Lemma dropLast_app (s : string) : dropLast (s ++ "/") = s.
Proof. now apply JSFacts.dropLast_single_byte. Qed.

(** X2.  The two replacements of a trailing slash: [replace(/\/?$/, '/')]
    always yields a string ending in a slash and is idempotent, and
    [replace(/\/?$/, '')] undoes it on a string that had no trailing
    slash. *)
Theorem trailing_slash_normalisation (s : string) :
  endsWithSlash (withTrailingSlash s) = true
  /\ withTrailingSlash (withTrailingSlash s) = withTrailingSlash s
  /\ (endsWithSlash s = false ->
      withoutTrailingSlash (withTrailingSlash s) = s)
  /\ (endsWithSlash s = true -> withTrailingSlash s = s).
Proof.
  assert (H1 : endsWithSlash (withTrailingSlash s) = true).
  { unfold withTrailingSlash. destruct (endsWithSlash s) eqn:E;
      [exact E | apply endsWithSlash_app]. }
  split; [exact H1|]. split; [|split].
  - unfold withTrailingSlash at 1. now rewrite H1.
  - intros E. unfold withoutTrailingSlash. rewrite H1.
    unfold withTrailingSlash. rewrite E. apply dropLast_app.
  - intros E. unfold withTrailingSlash. now rewrite E.
Qed.

(** *** Connecting *)

Lemma withTrailingSlash_truthy (u : string) :
  truthy (VStr (withTrailingSlash u)) = true.
Proof.
  unfold withTrailingSlash. destruct (endsWithSlash u) eqn:E.
  - destruct u; [discriminate | reflexivity].
  - destruct u; reflexivity.
Qed.

Lemma js_or_default_truthy (x : value) (d : string) :
  d <> "" -> truthy (js_or x (VStr d)) = true.
Proof.
  intros Hd. unfold js_or. destruct (truthy x) eqn:Hx; [exact Hx|].
  simpl. destruct (d =? "")%string eqn:E; [|reflexivity].
  apply String.eqb_eq in E. contradiction.
Qed.

(** X3.  On a freshly built adapter, [connect] refuses with 'Credentials
    should exist.' exactly when no truthy token was given: the username and
    the webhook URL always pass the test, by their defaults.  The refusal
    makes no call and leaves the adapter as it was. *)
Theorem connect_requires_token (env : Imports) (obj : value) (this : t) :
  constructor env obj = ret this ->
  (truthy (get obj "token") = false ->
   connect env this =
     (ret (ObservableThrow (Error "Credentials should exist.")), this, []))
  /\ (truthy (get obj "token") = true ->
      forall e, fst (fst (connect env this)) <> ret (ObservableThrow e)).
Proof.
  intros Hc.
  destruct (constructor_inv env obj this Hc)
    as (u & Hu & Ht & _ & _ & Htok & Huser & _ & Hurl & Hconn & _).
  unfold connect. rewrite Hconn, Htok, Huser, Hurl.
  unfold js_and. rewrite Ht.
  rewrite (js_or_default_truthy (get obj "username") "SMS") by discriminate.
  rewrite withTrailingSlash_truthy.
  cbv beta iota delta [negb orb].
  split.
  - intros Htk. unfold js_or at 1. rewrite Htk. reflexivity.
  - intros Htk e. unfold js_or at 1. rewrite Htk, Htk.
    match goal with
    | |- context [match ?c with inl _ => _ | inr _ => _ end] =>
        destruct c as [opts|e0]
    end; [|cbn [fst]; discriminate].
    destruct (KikBot env opts); cbn [fst]; discriminate.
Qed.

Lemma connect_requires_token_witness :
  exists this,
    constructor sampleImports (set sampleOptions "token" (VStr "")) = ret this
    /\ connect sampleImports this =
         (ret (ObservableThrow (Error "Credentials should exist.")),
          this, []).
Proof.
  eexists. split; [reflexivity|].
  apply (connect_requires_token sampleImports
           (set sampleOptions "token" (VStr "")) _ eq_refl).
  reflexivity.
Defined.

(** X4.  A [connect] that succeeds on an adapter whose flag is not yet set
    has created a Kik session from the token, the username and the webhook
    URL, mounted its handler at '/', started the webhook server if there is
    one, and set the flag; [listen] then no longer throws. *)
Theorem first_connect_creates_session
        (env : Imports) (this this1 : t) (obs : value) (tr : list effect) :
  connected this = false ->
  connect env this = (ret (ObservableOf obs), this1, tr) ->
  exists kikOptions s,
    KikBot env kikOptions = ret s
    /\ session this1 = Some s
    /\ get kikOptions "apiKey" = token this
    /\ get kikOptions "username" = username this
    /\ router this1 = (router this ++ ["/"])%list
    /\ connected this1 = true
    /\ tr = ([NewKikBot kikOptions; RouterUse "/"] ++
             match webhookServer this with
             | Some _ => [WebhookListen]
             | None => []
             end)%list
    /\ obs = VObj [("type", VStr "connected"); ("serviceID", serviceID this)]
    /\ listen this1 = (ObservableCreate, [UpdateBotConfiguration]).
Proof.
  intros Hc. unfold connect. rewrite Hc.
  destruct (_ || _); [discriminate|].
  set (base := VObj _).
  assert (Hbase : forall o, (o = base \/ exists p, o = set base "incomingPath" p) ->
                            get o "apiKey" = token this
                            /\ get o "username" = username this).
  { intros o [-> | [p ->]]; split; reflexivity. }
  destruct (if truthy _ then _ else _) as [opts|e] eqn:Ho; [|discriminate].
  assert (Hopts : opts = base \/ exists p, opts = set base "incomingPath" p).
  { destruct (truthy _) in Ho.
    - destruct (get (url_parse env (webhookURL this)) "path");
        try discriminate.
      injection Ho as <-. right. eexists. reflexivity.
    - injection Ho as <-. now left. }
  destruct (KikBot env opts) as [s|e] eqn:Hk; [|discriminate].
  intros H. injection H as <- <- <-.
  exists opts, s. destruct (Hbase opts Hopts) as [Ha Hu].
  repeat split; try assumption.
Qed.

Lemma first_connect_creates_session_witness :
  exists kikOptions s,
    KikBot sampleImports kikOptions = ret s
    /\ session (snd (fst (connect sampleImports sampleAdapter))) = Some s
    /\ get kikOptions "apiKey" = VStr "secret".
Proof.
  destruct (first_connect_creates_session sampleImports sampleAdapter
              _ _ _ eq_refl eq_refl)
    as (opts & s & Hk & Hs & Ha & _).
  exists opts, s. repeat split; assumption.
Defined.

(** X5.  [disconnect] on an adapter that has no session still sets the
    flag, so from then on [connect] answers 'connected' without ever
    creating a session: whatever is called afterwards the session stays
    absent, [listen] throws 'No session found.' and [send] cannot reach the
    SDK. *)
Theorem disconnect_before_connect_locks_out
        (env : Imports) (this : t) (calls : list method) :
  session this = None ->
  let this1 := snd (fst (disconnect env this)) in
  let this2 := run env this1 calls in
  connect env this2 =
    (ret (ObservableOf (VObj [("type", VStr "connected");
                              ("serviceID", serviceID this)])), this2, [])
  /\ session this2 = None
  /\ listen this2 = (ObservableThrow (Error "No session found."), [])
  /\ forall data content to, ~ In (SessionSend content to)
                                  (snd (send env data this2)).
Proof.
  intros Hs this1 this2.
  assert (H1 : connected this1 = true /\ session this1 = None
               /\ serviceID this1 = serviceID this).
  { subst this1. unfold disconnect. destruct (webhookServer _); simpl; auto. }
  destruct H1 as (Hc1 & Hs1 & Hid1).
  pose proof (run_connected env calls this1 Hc1) as Hl.
  fold this2 in Hl. unfold link in Hl. injection Hl as Hid Hc Hse _.
  assert (Hs2 : session this2 = None) by congruence.
  split; [|split; [|split]].
  - unfold connect. rewrite Hc, Hc1. unfold connectedEvent, serviceId.
    now rewrite Hid, Hid1.
  - exact Hs2.
  - unfold listen. now rewrite Hs2.
  - intros data content to.
    cbv beta iota zeta delta [send bind call liftC fail].
    destruct (schemas env data "send") as [[]|e0];
      [|intros [Hin|[]]; discriminate].
    destruct (settle _) as [buttons|eb];
      [|intros [Hin|[]]; discriminate].
    destruct (buildMessage data buttons) as [btns [m|]];
      [rewrite Hs2|]; intros [Hin|[]]; discriminate.
Qed.

Lemma disconnect_before_connect_locks_out_witness :
  session (run sampleImports
             (snd (fst (disconnect sampleImports sampleAdapter)))
             [Connect; Listen; Connect]) = None.
Proof.
  destruct (disconnect_before_connect_locks_out sampleImports sampleAdapter
              [Connect; Listen; Connect] eq_refl) as (_ & Hs & _).
  exact Hs.
Defined.

(** *** What no call changes *)

Definition keeps {A X : Type} (f : t -> X) (m : action A) : Prop :=
  forall this, f (snd (fst (m this))) = f this.

Lemma keeps_bind {A B X : Type} (f : t -> X) (m : action A)
      (k : A -> action B) :
  keeps f m -> (forall a, keeps f (k a)) -> keeps f (bind m k).
Proof.
  intros Hm Hk this. unfold bind.
  specialize (Hm this). destruct (m this) as [[p this1] tr1]. simpl in Hm.
  destruct p as [a|e]; simpl; [|exact Hm].
  specialize (Hk a this1). destruct (k a this1) as [[q this2] tr2].
  simpl in *. congruence.
Qed.

Lemma keeps_still {A X : Type} (f : t -> X) (m : action A) :
  (forall this, snd (fst (m this)) = this) -> keeps f m.
Proof. intros H this. now rewrite H. Qed.

Lemma keeps_config_user (env : Imports) (key : value) (cache : bool) :
  keeps config (user env key cache).
Proof.
  intros this. unfold user.
  destruct (session this); [|reflexivity].
  destruct (cache && truthy (Map_get key (storeUsers this))); [reflexivity|].
  revert this. apply keeps_bind; [now apply keeps_still|].
  intros profile. apply keeps_bind; [now apply keeps_still|].
  intros data this. reflexivity.
Qed.

Lemma keeps_config_onIncoming (env : Imports) (incoming : value) :
  keeps config (onIncoming env incoming).
Proof.
  unfold onIncoming, tell.
  apply keeps_bind; [apply keeps_config_user|]. intros ui.
  apply keeps_bind; [now apply keeps_still|]. intros normalized.
  apply keeps_bind; [now apply keeps_still|]. intros parsed.
  apply keeps_bind; [now apply keeps_still|]. intros validated.
  apply keeps_bind; [|intros; now apply keeps_still].
  destruct (truthy validated); now apply keeps_still.
Qed.

(** [send] leaves the whole adapter as it was. *)
Lemma send_still (env : Imports) (data : value) (this : t) :
  snd (fst (send env data this)) = this.
Proof.
  cbv beta iota zeta delta [send bind call liftC fail].
  destruct (schemas env data "send") as [[]|e0]; [|reflexivity].
  destruct (settle _) as [buttons|eb]; [|reflexivity].
  destruct (buildMessage data buttons) as [btns [m|]]; [|reflexivity].
  destruct (session this); [|reflexivity].
  destruct (session_send env _ _); reflexivity.
Qed.

Lemma step_config (env : Imports) (this : t) (m : method) :
  config (step env this m) = config this.
Proof.
  destruct m; simpl; try reflexivity.
  - unfold connect. destruct (connected this); [reflexivity|].
    destruct (_ || _); [reflexivity|].
    match goal with
    | |- context [match ?c with inl _ => _ | inr _ => _ end] =>
        destruct c as [opts|e]
    end; [|reflexivity].
    destruct (KikBot env opts); reflexivity.
  - unfold disconnect. simpl. destruct (webhookServer this); reflexivity.
  - apply keeps_config_onIncoming.
  - now rewrite send_still.
Qed.

Lemma run_config (env : Imports) (calls : list method) (this : t) :
  config (run env this calls) = config this.
Proof.
  revert this. induction calls as [|m calls IH]; intros this; [reflexivity|].
  simpl. rewrite IH. apply step_config.
Qed.

(** C10.  On an adapter built from [obj], and after any sequence of calls
    made on it since, [getRouter] returns null exactly when [obj.http] was
    given, that is when the constructor created a WebHookServer; when it
    does not return null, no webhook server was created and what it returns
    is the adapter's internal router as it then is, with the routes mounted
    so far. *)
Theorem getRouter_null_iff_http
        (env : Imports) (obj : value) (this : t) (calls : list method) :
  constructor env obj = ret this ->
  let later := run env this calls in
  (getRouter later = None <-> truthy (get obj "http") = true)
  /\ (getRouter later = None <-> webhookServer later <> None)
  /\ (forall r, getRouter later = Some r ->
        r = router later /\ webhookServer later = None
        /\ truthy (get obj "http") = false)
  /\ (truthy (get obj "http") = false ->
      getRouter later = Some (router later)).
Proof.
  intros H later.
  destruct (constructor_inv env obj this H)
    as (u & _ & _ & _ & _ & _ & _ & _ & _ & _ & _ & _ & Hyes & Hno).
  pose proof (run_config env calls this) as Hcfg. fold later in Hcfg.
  unfold config in Hcfg. injection Hcfg as _ _ _ _ _ Hws.
  unfold getRouter. rewrite Hws.
  destruct (truthy (get obj "http")) eqn:Hh.
  - specialize (Hyes eq_refl).
    destruct (webhookServer this) as [server|]; [|congruence].
    repeat split; try congruence; try discriminate; intros; congruence.
  - rewrite (Hno eq_refl).
    repeat split; try congruence; try discriminate; intros; congruence.
Qed.

Lemma getRouter_null_iff_http_witness :
  (exists this,
     constructor sampleImports sampleHttpOptions = ret this
     /\ getRouter (run sampleImports this [Connect; Disconnect]) = None)
  /\ exists this,
       constructor sampleImports sampleOptions = ret this
       /\ getRouter this = Some []
       /\ getRouter (run sampleImports this [Connect]) = Some ["/"].
Proof.
  split.
  - eexists. split; [reflexivity|].
    destruct (getRouter_null_iff_http sampleImports sampleHttpOptions _
                [Connect; Disconnect] eq_refl) as [[_ Hnull] _].
    apply Hnull. reflexivity.
  - eexists. split; [reflexivity|]. split.
    + destruct (getRouter_null_iff_http sampleImports sampleOptions _
                  [] eq_refl) as (_ & _ & _ & Hsome).
      exact (Hsome eq_refl).
    + destruct (getRouter_null_iff_http sampleImports sampleOptions _
                  [Connect] eq_refl) as (_ & _ & _ & Hsome).
      exact (Hsome eq_refl).
Defined.

(** X6.  Whatever sequence of calls is made, the service id, log level,
    token, username, webhook URL and webhook server that the constructor
    set stay the same; only the flag, the session, the routes and the user
    cache ever change.  [send] changes nothing at all. *)
Theorem configuration_is_fixed (env : Imports) (this : t)
        (calls : list method) :
  config (run env this calls) = config this
  /\ forall data, snd (fst (send env data this)) = this.
Proof.
  split; [|intros data; apply send_still].
  revert this. induction calls as [|m calls IH]; intros this; [reflexivity|].
  simpl. rewrite IH. apply step_config.
Qed.

(** *** The user cache *)

Lemma Map_get_set_same (key v : value) (m : list (value * value)) :
  sameValueZero key key = true -> Map_get key (Map_set key v m) = v.
Proof.
  intros Hk. induction m as [|[k v'] m IH]; simpl.
  - now rewrite Hk.
  - destruct (sameValueZero k key) eqn:E; simpl; now rewrite E.
Qed.

(** X7.  With a session, the first [user] lookup of a string key that is
    not cached asks the SDK once, stores the profile under the key with
    [id] set to the key, and resolves to it; the next lookup with the cache
    enabled resolves to the same data without calling the SDK, while a
    lookup with the cache disabled asks again. *)
Theorem user_lookup_is_cached
        (env : Imports) (this : t) (k : string) (profile : value) :
  session this <> None ->
  truthy (Map_get (VStr k) (storeUsers this)) = false ->
  session_getUserProfile env (VStr k) = Fulfilled profile ->
  isNil profile = false ->
  exists data this1,
    user env (VStr k) true this
      = (Fulfilled data, this1, [GetUserProfile (VStr k)])
    /\ get data "id" = VStr k
    /\ get data "username" = get profile "username"
    /\ get data "displayName" = get profile "displayName"
    /\ Map_get (VStr k) (storeUsers this1) = data
    /\ user env (VStr k) true this1 = (Fulfilled data, this1, [])
    /\ snd (user env (VStr k) false this1) = [GetUserProfile (VStr k)].
Proof.
  intros Hs Hmiss Hp Hn.
  destruct (session this) as [sess|] eqn:Hsess; [|congruence].
  eexists. eexists. split.
  - unfold user. rewrite Hsess, Hmiss. simpl andb.
    cbv beta iota zeta delta [bind call liftC settle prop ret throw].
    rewrite Hp, Hn. reflexivity.
  - assert (Hget : forall v m, Map_get (VStr k) (Map_set (VStr k) v m) = v).
    { intros v m. apply Map_get_set_same. simpl. apply String.eqb_refl. }
    repeat split.
    + simpl. apply Hget.
    + unfold user. simpl. rewrite Hsess, Hget. reflexivity.
    + unfold user. simpl. rewrite Hsess.
      cbv beta iota zeta delta [bind call liftC settle prop ret throw].
      rewrite Hp, Hn. reflexivity.
Qed.

Lemma user_lookup_is_cached_witness :
  exists data this1,
    user sampleImports (VStr "bob") true
         (snd (fst (connect sampleImports sampleAdapter)))
      = (Fulfilled data, this1, [GetUserProfile (VStr "bob")])
    /\ user sampleImports (VStr "bob") true this1 = (Fulfilled data, this1, []).
Proof.
  destruct (user_lookup_is_cached sampleImports
              (snd (fst (connect sampleImports sampleAdapter))) "bob"
              (VObj [("username", VStr "u")]))
    as (data & this1 & H1 & _ & _ & _ & _ & H2 & _).
  - discriminate.
  - reflexivity.
  - reflexivity.
  - reflexivity.
  - exists data, this1. split; assumption.
Defined.

(** *** Listening *)

(** X8.  The middleware calls [next()] exactly when the user lookup and the
    parser's [normalize], [parse] and [validate] all resolve; if any of them
    rejects, [next()] is never called for that message. *)
Theorem next_called_iff_pipeline_resolves
        (env : Imports) (this : t) (incoming : value) :
  let tr := snd (onIncoming env incoming this) in
  In Next tr <->
  exists userInformation normalized parsed validated,
    fst (fst (user env (get incoming "from") true this))
      = Fulfilled userInformation
    /\ parser_normalize env incoming userInformation = Fulfilled normalized
    /\ parser_parse env normalized = Fulfilled parsed
    /\ parser_validate env parsed = Fulfilled validated.
Proof.
  unfold onIncoming, bind, call, tell, pure.
  pose proof (user_trace env (get incoming "from") true this) as Hpre.
  destruct (user env (get incoming "from") true this) as [[pu this1] pre].
  simpl in Hpre.
  assert (Hno : ~ In Next pre).
  { intros Hin. destruct Hpre as [-> | ->]; simpl in Hin;
      [contradiction | destruct Hin as [Hin|[]]; discriminate]. }
  destruct pu as [ui|e]; simpl.
  2:{ split; [intros Hin; contradiction|].
      intros (ui & n & p & v & Hu & _). discriminate. }
  destruct (parser_normalize env incoming ui) as [n|e] eqn:Hn; simpl.
  2:{ split.
      - intros Hin. exfalso. apply in_app_or in Hin.
        destruct Hin as [Hin|[Hin|[]]]; [auto | discriminate].
      - intros (ui' & n' & p & v & Hu & Hn' & _).
        injection Hu as <-. congruence. }
  destruct (parser_parse env n) as [p|e] eqn:Hp; simpl.
  2:{ split.
      - intros Hin. exfalso. apply in_app_or in Hin.
        destruct Hin as [Hin|[Hin|[Hin|[]]]]; [auto | discriminate..].
      - intros (ui' & n' & p' & v & Hu & Hn' & Hp' & _).
        injection Hu as <-. rewrite Hn in Hn'. injection Hn' as <-.
        congruence. }
  destruct (parser_validate env p) as [v|e] eqn:Hv; simpl.
  2:{ split.
      - intros Hin. exfalso. apply in_app_or in Hin.
        destruct Hin as [Hin|[Hin|[Hin|[Hin|[]]]]]; [auto | discriminate..].
      - intros (ui' & n' & p' & v & Hu & Hn' & Hp' & Hv').
        injection Hu as <-. rewrite Hn in Hn'. injection Hn' as <-.
        rewrite Hp in Hp'. injection Hp' as <-. congruence. }
  destruct (truthy v); simpl; split;
    solve [ intros _; exists ui, n, p, v; repeat split; assumption
          | intros _; apply in_or_app; right; simpl; auto 10 ].
Qed.

(** *** Sending *)

Lemma filterButtons_clean (items : list value) :
  (forall a, In a items -> isNil a = false) ->
  filterButtons items = ret (List.filter isButton items).
Proof.
  induction items as [|a items IH]; intros H; [reflexivity|].
  simpl. unfold prop. rewrite (H a) by now left.
  cbv beta iota delta [ret throw].
  rewrite IH by (intros b Hb; apply H; now right).
  unfold isButton. cbv beta iota delta [ret].
  destruct (is_str (get a "type") "Button"); reflexivity.
Qed.

Lemma filterButtons_null (items : list value) (a : value) :
  In a items -> isNil a = true -> filterButtons items = throw TypeError.
Proof.
  induction items as [|b items IH]; intros Hin Hn; [contradiction|].
  simpl. unfold prop. destruct (isNil b) eqn:Hb; [reflexivity|].
  cbv beta iota delta [ret throw].
  destruct Hin as [-> | Hin]; [congruence|].
  now rewrite (IH Hin Hn).
Qed.

(** X9.  A null or undefined entry in [object.attachment] makes [send]
    reject with a TypeError right after validation, whatever the object
    type, and nothing is sent. *)
Theorem send_rejects_null_attachment
        (env : Imports) (this : t) (data a : value) (items : list value) :
  schemas env data "send" = Fulfilled tt ->
  R_path ["object"; "attachment"] data = VArr items ->
  In a items -> isNil a = true ->
  send env data this = (Broken TypeError, this, [SchemaValidate data "send"]).
Proof.
  intros Hs Ha Hin Hn.
  cbv beta iota zeta delta [send bind call liftC fail].
  rewrite Hs, Ha. unfold buttonsOf, js_or. simpl truthy. cbv beta iota.
  now rewrite (filterButtons_null items a Hin Hn).
Qed.

Lemma send_rejects_null_attachment_witness :
  fst (fst (send sampleImports
              (VObj [ ("to", VObj [("id", VStr "alice")]);
                      ("object", VObj [ ("type", VStr "Note");
                                        ("content", VStr "hi");
                                        ("attachment", VArr [VNull]) ]) ])
              (snd (fst (connect sampleImports sampleAdapter)))))
  = Broken TypeError.
Proof.
  rewrite (send_rejects_null_attachment sampleImports _ _ VNull [VNull]);
    try reflexivity.
  now left.
Defined.

(** What [send] does once a message is built. *)
Lemma send_built (env : Imports) (this : t) (data buttons btns : value)
      (m : Message) :
  let toID := js_or (R_path ["to"; "id"] data) (R_path ["to"; "name"] data) in
  let content :=
    if truthy btns && negb (R_isEmpty btns)
    then addResponseKeyboard btns toID m else m in
  schemas env data "send" = Fulfilled tt ->
  buttonsOf (R_path ["object"; "attachment"] data) = ret buttons ->
  buildMessage data buttons = (btns, Some m) ->
  session this <> None ->
  session_send env content toID = Fulfilled tt ->
  send env data this =
    (Fulfilled (sentEvent this), this,
     [SchemaValidate data "send"; SessionSend content toID]).
Proof.
  intros toID content Hs Hb Hm Hsess Hsend.
  cbv beta iota zeta delta [send bind call liftC fail].
  rewrite Hs, Hb. cbv beta iota delta [settle ret]. rewrite Hm.
  destruct (session this); [|congruence].
  fold toID. fold content. rewrite Hsend. reflexivity.
Qed.

Lemma buttonsOf_array (attachments : value) (items : list value) :
  js_or attachments (VArr []) = VArr items ->
  (forall a, In a items -> isNil a = false) ->
  buttonsOf attachments = ret (VArr (buttonLabels items)).
Proof.
  intros Ha Hclean. unfold buttonsOf. rewrite Ha.
  now rewrite (filterButtons_clean items Hclean).
Qed.

(** X10.  For a valid Note whose attachments, if any, are an array without
    null entries, [send] sends one text message carrying [object.content]
    to [to.id], or to [to.name] when there is no id.  The message gets a
    response keyboard exactly when some attachment of type 'Button' has a
    url or a name, and the keyboard then lists those labels in order. *)
Theorem send_note_text_and_keyboard
        (env : Imports) (this : t) (data : value) (items : list value) :
  let toID := js_or (R_path ["to"; "id"] data) (R_path ["to"; "name"] data) in
  schemas env data "send" = Fulfilled tt ->
  R_path ["object"; "type"] data = VStr "Note" ->
  js_or (R_path ["object"; "attachment"] data) (VArr []) = VArr items ->
  (forall a, In a items -> isNil a = false) ->
  session this <> None ->
  (forall content, session_send env content toID = Fulfilled tt) ->
  exists content,
    send env data this =
      (Fulfilled (VObj [("type", VStr "sent"); ("serviceID", serviceID this)]),
       this, [SchemaValidate data "send"; SessionSend content toID])
    /\ msgType content = "text"
    /\ payload content = R_path ["object"; "content"] data
    /\ attributionName content = None
    /\ attributionIcon content = None
    /\ responseKeyboard content =
         match buttonLabels items with
         | [] => None
         | labels => Some (VArr labels, toID)
         end.
Proof.
  intros toID Hs Hty Ha Hclean Hsess Hsend.
  pose proof (buttonsOf_array _ _ Ha Hclean) as Hb.
  assert (Hm : buildMessage data (VArr (buttonLabels items))
               = (VArr (buttonLabels items),
                  Some (Message_text (R_path ["object"; "content"] data)))).
  { unfold buildMessage. now rewrite Hty. }
  eexists. split.
  - apply (send_built env this data _ _ _ Hs Hb Hm Hsess). apply Hsend.
  - destruct (buttonLabels items); repeat split.
Qed.

Lemma send_note_text_and_keyboard_witness :
  exists content,
    send sampleImports sampleNote
         (snd (fst (connect sampleImports sampleAdapter)))
      = (Fulfilled (VObj [("type", VStr "sent");
                          ("serviceID", VStr "svc-kik")]),
         snd (fst (connect sampleImports sampleAdapter)),
         [SchemaValidate sampleNote "send"; SessionSend content (VStr "alice")])
    /\ payload content = VStr "hi"
    /\ responseKeyboard content = None.
Proof.
  destruct (send_note_text_and_keyboard sampleImports
              (snd (fst (connect sampleImports sampleAdapter)))
              sampleNote [])
    as (content & H & _ & Hp & _ & _ & Hk); try reflexivity.
  - intros a [].
  - discriminate.
  - exists content. repeat split; assumption.
Defined.

(** X11.  For a valid Image or Video without attachments, [send] sends a
    picture or a video message of [object.url]; the attribution name is
    [object.name] when that is non-empty, and the attribution icon is
    [object.preview], or the url itself when there is no preview. *)
Theorem send_media_attribution
        (env : Imports) (this : t) (data : value) (ty kind : string) :
  let toID := js_or (R_path ["to"; "id"] data) (R_path ["to"; "name"] data) in
  let url := R_path ["object"; "url"] data in
  let name := R_path ["object"; "name"] data in
  let preview := R_path ["object"; "preview"] data in
  schemas env data "send" = Fulfilled tt ->
  R_path ["object"; "type"] data = VStr ty ->
  (ty = "Image" /\ kind = "picture") \/ (ty = "Video" /\ kind = "video") ->
  js_or (R_path ["object"; "attachment"] data) (VArr []) = VArr [] ->
  session this <> None ->
  (forall content, session_send env content toID = Fulfilled tt) ->
  exists content,
    send env data this =
      (Fulfilled (VObj [("type", VStr "sent"); ("serviceID", serviceID this)]),
       this, [SchemaValidate data "send"; SessionSend content toID])
    /\ msgType content = kind
    /\ payload content = url
    /\ attributionName content = (if truthy name then Some name else None)
    /\ attributionIcon content =
         (if truthy preview then Some preview
          else if truthy url then Some url else None)
    /\ responseKeyboard content = None.
Proof.
  intros toID url name preview Hs Hty Hkind Ha Hsess Hsend.
  assert (Hb : buttonsOf (R_path ["object"; "attachment"] data)
               = ret (VArr (buttonLabels []))).
  { apply buttonsOf_array; [exact Ha | intros a []]. }
  assert (Hname : truthy (js_or name (VStr "")) = truthy name
                  /\ (truthy name = true -> js_or name (VStr "") = name)).
  { unfold js_or. destruct (truthy name) eqn:E; split; auto; discriminate. }
  destruct Hname as [Hn1 Hn2].
  assert (Hprev : truthy (js_or preview url)
                  = (if truthy preview then true else truthy url)
                  /\ js_or preview url
                     = (if truthy preview then preview else url)).
  { unfold js_or. destruct (truthy preview) eqn:E; split; auto. }
  destruct Hprev as [Hp1 Hp2].
  assert (Hm : exists m,
            buildMessage data (VArr (buttonLabels []))
              = (VArr (buttonLabels []), Some m)
            /\ msgType m = kind /\ payload m = url
            /\ attributionName m = (if truthy name then Some name else None)
            /\ attributionIcon m =
                 (if truthy preview then Some preview
                  else if truthy url then Some url else None)
            /\ responseKeyboard m = None).
  { unfold buildMessage. rewrite Hty. fold url. fold name. fold preview.
    rewrite Hn1, Hp1, Hp2.
    destruct Hkind as [[-> ->] | [-> ->]]; cbn [is_str String.eqb Ascii.eqb
      Bool.eqb orb];
      destruct (truthy name) eqn:En; destruct (truthy preview) eqn:Ep;
      try destruct (truthy url) eqn:Eu;
      eexists; (split; [reflexivity|]); rewrite ?Hn2 by reflexivity;
      repeat split. }
  destruct Hm as (m & Hm & H1 & H2 & H3 & H4 & H5).
  exists m. split.
  - apply (send_built env this data _ _ _ Hs Hb Hm Hsess). apply Hsend.
  - repeat split; assumption.
Qed.

Lemma send_media_attribution_witness :
  exists content,
    fst (fst (send sampleImports samplePicture
                (snd (fst (connect sampleImports sampleAdapter)))))
      = Fulfilled (VObj [("type", VStr "sent"); ("serviceID", VStr "svc-kik")])
    /\ snd (send sampleImports samplePicture
              (snd (fst (connect sampleImports sampleAdapter))))
       = [SchemaValidate samplePicture "send";
          SessionSend content (VStr "alice")]
    /\ attributionIcon content = Some (VStr "https://files.example/cat.png").
Proof.
  destruct (send_media_attribution sampleImports
              (snd (fst (connect sampleImports sampleAdapter)))
              samplePicture "Image" "picture")
    as (content & H & _ & _ & _ & Hi & _); try reflexivity.
  - left. split; reflexivity.
  - discriminate.
  - exists content. rewrite H. repeat split. exact Hi.
Defined.

End AdapterExtras.

(** * Further properties of the Slack parser *)

Module ParserExtras.
Import JS Parser ParserFacts.

Lemma isObject_not_null (o : value) : isObject o -> o <> VNull.
Proof. destruct o; simpl; try contradiction; discriminate. Qed.

Lemma attach_isObject (w : World) (normalized as3 as4 : value) :
  isObject as3 ->
  attachNoteAndContext w normalized as3 = Fulfilled as4 -> isObject as4.
Proof.
  intros Ho. unfold attachNoteAndContext.
  set (noted := if _ && _ then set as3 "object" _ else as3).
  assert (Hn : isObject noted).
  { subst noted. destruct (_ && _); [now apply isObject_set | exact Ho]. }
  destruct (truthy (get noted "object") && _); intros H; injection H as <-;
    [now apply isObject_set | exact Hn].
Qed.

(** X12.  [parse] resolves to null exactly when the null-cleaned message
    is missing or empty or has no truthy text; every other message leads to
    an activity stream, a rejection or an exception. *)
Theorem parse_null_iff_no_text (lib : Imports) (this : t) (w : World)
        (event : value) :
  let normalized := cleanNulls lib event in
  parse lib this w event = Resolved VNull <->
  negb (truthy normalized) || R_isEmpty normalized = true
  \/ truthy (get normalized "text") = false.
Proof.
  intros normalized. split.
  - intros H. destruct (negb (truthy normalized) || R_isEmpty normalized)
      eqn:Hg; [now left|]. right.
    destruct (truthy (get normalized "text")) eqn:Ht; [|reflexivity].
    exfalso.
    destruct (parse_resolved _ _ _ _ _ H)
      as [Hnull | (p & as3 & _ & _ & [Ho _] & _ & _ & Ha)].
    + unfold parse in H. fold normalized in H. rewrite Hg, Ht in H.
      cbv beta iota delta [negb] in H.
      destruct (createActivityStream lib this w normalized) as [as0|e] eqn:Hc;
        [|discriminate].
      destruct (createActivityStream_inv _ _ _ _ _ Hc) as (p & -> & _).
      destruct (extractObject lib w normalized _) as [as3|e] eqn:He;
        [|discriminate].
      apply extractObject_shape in He; [|exact I|reflexivity].
      destruct He as [[Ho _] _]. unfold andThen in H.
      destruct (attachNoteAndContext w normalized as3) as [as4|e] eqn:Ha;
        [|discriminate].
      injection H as ->.
      exact (isObject_not_null _ (attach_isObject _ _ _ _ Ho Ha) eq_refl).
    + exact (isObject_not_null _ (attach_isObject _ _ _ _ Ho Ha) eq_refl).
  - unfold parse. fold normalized. intros [-> | Ht]; [reflexivity|].
    destruct (negb (truthy normalized) || R_isEmpty normalized);
      [reflexivity|]. now rewrite Ht.
Qed.

(** X13.  Every activity stream [parse] resolves to has the Activity
    Streams context and type 'Create', an actor built from [user] whose type
    is 'Application' for a bot and 'Person' otherwise, and a target built
    from [channel] whose name is the channel id, or the channel's user when
    there is no id, and whose type is 'Person' for a direct message and
    'Group' otherwise.  The later steps never overwrite them. *)
Theorem parse_envelope_actor_target (lib : Imports) (this : t) (w : World)
        (event as2 : value) :
  parse lib this w event = Resolved as2 ->
  as2 <> VNull ->
  let normalized := cleanNulls lib event in
  get as2 "@context" = VStr "https://www.w3.org/ns/activitystreams"
  /\ get as2 "type" = VStr "Create"
  /\ get as2 "actor" =
       VObj [ ("id", R_path ["user"; "id"] normalized);
              ("name", R_path ["user"; "name"] normalized);
              ("type", VStr (if truthy (R_path ["user"; "is_bot"] normalized)
                             then "Application" else "Person")) ]
  /\ get as2 "target" =
       VObj [ ("id", R_path ["channel"; "id"] normalized);
              ("name", if truthy (R_path ["channel"; "id"] normalized)
                       then R_path ["channel"; "id"] normalized
                       else R_path ["channel"; "user"] normalized);
              ("type", VStr (if truthy (R_path ["channel"; "is_im"] normalized)
                             then "Person" else "Group")) ].
Proof.
  intros H Hnn normalized.
  destruct (parse_resolved _ _ _ _ _ H)
    as [-> | (p & as3 & _ & _ & Hp & Hs & _ & Ha)]; [congruence|].
  fold normalized in Hs, Ha.
  destruct (attachNoteAndContext_shape _ _ _ _ Hp Ha) as (Hs' & _).
  assert (Hg : forall k, k <> "object" ->
                         get as2 k = get (addressed this p normalized) k).
  { intros k Hk. now rewrite (Hs' k Hk), (Hs k Hk). }
  repeat split; rewrite Hg by discriminate; reflexivity.
Qed.

Lemma parse_envelope_actor_target_witness :
  exists as2,
    parse sampleImports sampleParser (sampleWorld 0 "id") sampleTimed
      = Resolved as2
    /\ get as2 "actor" =
         VObj [ ("id", VStr "U1"); ("name", VStr "ann");
                ("type", VStr "Person") ].
Proof.
  eexists. split; [reflexivity|].
  destruct (parse_envelope_actor_target sampleImports sampleParser
              (sampleWorld 0 "id") sampleTimed _ eq_refl)
    as (_ & _ & Hactor & _).
  - discriminate.
  - exact Hactor.
Defined.

(** *** Attachments *)

(** Nothing to read the comment from: [parseFile] throws. *)
Lemma parseFile_without_comment (file : value) (m : string) :
  get file "mimetype" = VStr m ->
  startsWith m "image" || startsWith m "video" = true ->
  isNil (commentHolder file) = true ->
  parseFile file = throw TypeError.
Proof.
  intros Hm Hmedia Hh.
  assert (Hn : isNil file = false)
    by (destruct file; try reflexivity; discriminate).
  unfold parseFile, prop. rewrite Hn.
  cbv beta iota delta [ret throw]. rewrite Hm. cbv beta iota. rewrite Hmedia.
  unfold commentHolder in Hh.
  destruct (get file "initial_comment") as [| |b|n|c|items|fields];
    cbn [isNil] in Hh |- *; try discriminate; try reflexivity.
  now rewrite Hh.
Qed.

(** X14.  [parseFile] on a file whose mimetype is a string: it returns null
    when the mimetype starts with neither 'image' nor 'video'; otherwise it
    throws a TypeError when the comment holder ([initial_comment], or its
    first element when that is an array) is null or undefined, and else
    returns a media object of type 'Video' or 'Image' whose content is the
    holder's comment, or the empty string when there is none.  A file whose
    mimetype is not a string throws a TypeError. *)
Theorem parseFile_outcomes (file : value) :
  (forall m, get file "mimetype" = VStr m ->
     (startsWith m "image" || startsWith m "video" = false ->
      parseFile file = ret VNull)
     /\ (startsWith m "image" || startsWith m "video" = true ->
         isNil (commentHolder file) = true ->
         parseFile file = throw TypeError)
     /\ (startsWith m "image" || startsWith m "video" = true ->
         isNil (commentHolder file) = false ->
         exists a,
           parseFile file = ret a
           /\ truthy a = true
           /\ get a "type"
                = VStr (if startsWith m "video" then "Video" else "Image")
           /\ get a "mediaType" = VStr m
           /\ get a "content"
                = (if truthy (get (commentHolder file) "comment")
                   then get (commentHolder file) "comment" else VStr "")))
  /\ ((forall m, get file "mimetype" <> VStr m) ->
      parseFile file = throw TypeError).
Proof.
  split.
  - intros m Hm. split; [now apply parseFile_other|].
    assert (Hn : isNil file = false)
      by (destruct file; try reflexivity; discriminate).
    unfold parseFile, prop. rewrite Hn.
    cbv beta iota delta [ret throw]. rewrite Hm. cbv beta iota.
    unfold commentHolder.
    split; intros -> Hh;
      destruct (get file "initial_comment") as [| |b|n|c|items|fields];
      cbn [isNil] in Hh |- *; try discriminate; try reflexivity;
      try rewrite Hh; try reflexivity;
      destruct (truthy (get file "thumb_1024"));
      eexists; (split; [reflexivity|]); repeat split.
  - intros Hno. unfold parseFile, prop.
    destruct (isNil file); [reflexivity|].
    cbv beta iota delta [ret throw].
    destruct (get file "mimetype") as [| | | |m| |] eqn:Hm; try reflexivity.
    exfalso. exact (Hno m eq_refl).
Qed.

(** X15.  A message whose text is not a URL and whose file has an image or
    video mimetype but no comment to read (no [initial_comment], or an
    empty array of them) makes [parse] reject with a TypeError: no activity
    stream is produced for it. *)
Theorem parse_rejects_media_without_comment
        (lib : Imports) (this : t) (w : World) (event as0 : value)
        (text m : string) :
  let normalized := cleanNulls lib event in
  let file := get normalized "file" in
  get normalized "text" = VStr text -> text <> "" ->
  createActivityStream lib this w normalized = ret as0 ->
  isUrl lib (dropLast (substr1 text)) = false ->
  get file "mimetype" = VStr m ->
  startsWith m "image" || startsWith m "video" = true ->
  isNil (commentHolder file) = true ->
  parse lib this w event = Rejected TypeError.
Proof.
  intros normalized file Ht Hne Hc Hu Hm Hmedia Hh.
  destruct (createActivityStream_inv _ _ _ _ _ Hc) as (p & -> & _).
  rewrite (parse_with_text lib this w event text p Ht Hne Hc).
  fold normalized. unfold extractObject. rewrite Ht, Hu.
  assert (Hf : truthy (get normalized "file") = true)
    by (fold file; destruct file; try discriminate; reflexivity).
  rewrite Hf.
  fold file. now rewrite (parseFile_without_comment file m Hm Hmedia Hh).
Qed.

Lemma parse_rejects_media_without_comment_witness :
  parse sampleImports sampleParser (sampleWorld 0 "id") sampleBareFile
  = Rejected TypeError.
Proof.
  apply (parse_rejects_media_without_comment sampleImports sampleParser
           (sampleWorld 0 "id") sampleBareFile
           (baseStream sampleParser (Num 0)) "see this" "image/png");
    try reflexivity.
  discriminate.
Defined.

(** *** Links *)

Lemma single_byte_bounds (a : ascii) :
  (byte a <? 128)%N = true ->
  (byte a <? 192)%N = true /\ continuation a = false.
Proof.
  intros H. apply N.ltb_lt in H. unfold continuation. split.
  - apply N.ltb_lt. lia.
  - apply andb_false_iff. left. apply N.leb_gt. exact H.
Qed.

(** X16.  On a text that begins and ends with an ASCII character, the two
    string operations that [parse] applies remove exactly those two
    characters and keep what lies between them, so a link written between
    angle brackets yields the bare address; the empty text and a text of
    one or two ASCII characters yield the empty string. *)
Theorem text_stripped_of_delimiters :
  (forall (a b : ascii) (u : string),
     (byte a <? 128)%N = true -> (byte b <? 128)%N = true ->
     dropLast (substr1 (String a (u ++ String b ""))) = u)
  /\ (forall u : string, dropLast (substr1 ("<" ++ u ++ ">")) = u)
  /\ dropLast (substr1 "") = ""
  /\ (forall a : ascii,
        (byte a <? 128)%N = true -> dropLast (substr1 (String a "")) = "")
  /\ (forall a b : ascii,
        (byte a <? 128)%N = true -> (byte b <? 128)%N = true ->
        dropLast (substr1 (String a (String b ""))) = "").
Proof.
  assert (Hstrip : forall (a b : ascii) (u : string),
            (byte a <? 128)%N = true -> (byte b <? 128)%N = true ->
            dropLast (substr1 (String a (u ++ String b ""))) = u).
  { intros a b u Ha Hb.
    destruct (single_byte_bounds a Ha) as [Ha' _].
    destruct (single_byte_bounds b Hb) as [_ Hb'].
    rewrite (JSFacts.substr1_single_byte a _ Ha').
    now apply JSFacts.dropLast_single_byte. }
  split; [exact Hstrip|]. split; [|split; [|split]].
  - intros u. apply (Hstrip "<"%char ">"%char u); reflexivity.
  - reflexivity.
  - intros a Ha. destruct (single_byte_bounds a Ha) as [Ha' _].
    now rewrite (JSFacts.substr1_single_byte a _ Ha').
  - intros a b Ha Hb. apply (Hstrip a b "" Ha Hb).
Qed.



(** *** The identifier of the object *)

Lemma extractObject_id (lib : Imports) (w : World)
      (normalized base as3 : value) :
  isObject base -> get base "object" = VUndefined ->
  extractObject lib w normalized base = Fulfilled as3 ->
  isObject as3
  /\ (textIsUrl lib normalized = false /\ get as3 "object" = VUndefined
      \/ isObject (get as3 "object")
         /\ get (get as3 "object") "id" =
              (if textIsUrl lib normalized
               then js_or (get normalized "eventID") (createIdentifier w)
               else messageId w normalized)).
Proof.
  intros Ho Hu. unfold extractObject, textIsUrl.
  destruct (get normalized "text") as [| | | |text| |]; try discriminate.
  destruct (isUrl lib _).
  - destruct (fileInfo w _) as [infos|e]; [|discriminate].
    unfold andThen, prop. destruct (isNil infos); [discriminate|].
    cbv beta iota delta [ret throw settle].
    destruct (get infos "mimetype"); try discriminate.
    intros H. injection H as <-.
    split; [now apply isObject_set|]. right.
    rewrite get_set_same by assumption. split; [exact I | reflexivity].
  - destruct (truthy (get normalized "file")).
    + destruct (parseFile (get normalized "file")) as [a|e]; [|discriminate].
      cbv beta iota delta [settle ret].
      destruct (truthy a).
      * destruct (truthy (get a "preview")); intros H; injection H as <-.
        -- split; [now repeat apply isObject_set|]. right.
           rewrite (get_set_same base) by assumption.
           rewrite get_set_same by now apply isObject_set.
           split; [exact I | reflexivity].
        -- split; [now apply isObject_set|]. right.
           rewrite get_set_same by assumption.
           split; [exact I | reflexivity].
      * intros H. injection H as <-. split; [assumption|]. now left.
    + intros H. injection H as <-. split; [assumption|]. now left.
Qed.

(** X18.  Whenever the activity stream has an object, its id is, for a
    text that is a URL, the message's eventID or else a fresh uuid; and for
    every other message (attachment or Note) the thread_ts, or else the ts,
    or else a fresh uuid. *)
Theorem object_id_source (lib : Imports) (this : t) (w : World)
        (event as2 : value) :
  parse lib this w event = Resolved as2 ->
  truthy (get as2 "object") = true ->
  let normalized := cleanNulls lib event in
  get (get as2 "object") "id" =
    if textIsUrl lib normalized then
      (if truthy (get normalized "eventID") then get normalized "eventID"
       else VStr (uuid_v4 w))
    else if truthy (get normalized "thread_ts") then get normalized "thread_ts"
    else if truthy (get normalized "ts") then get normalized "ts"
    else VStr (uuid_v4 w).
Proof.
  intros H Hobj normalized.
  assert (Hmid : messageId w normalized =
                 if truthy (get normalized "thread_ts")
                 then get normalized "thread_ts"
                 else if truthy (get normalized "ts") then get normalized "ts"
                 else VStr (uuid_v4 w)).
  { unfold messageId, js_or, createIdentifier.
    destruct (truthy (get normalized "thread_ts")) eqn:E1; cbv beta iota;
      [now rewrite E1 | reflexivity]. }
  destruct (parse_resolved _ _ _ _ _ H)
    as [-> | (p & as3 & _ & _ & _ & _ & He & Ha)]; [discriminate|].
  fold normalized in He, Ha.
  apply extractObject_id in He; [|apply isObject_addressed|reflexivity].
  destruct He as (Ho3 & [(Hurl & Hnone) | (Hset & Hid)]).
  - rewrite Hurl, <- Hmid.
    destruct (R_isEmpty (get normalized "content")) eqn:Hc.
    + rewrite (attach_nothing w normalized as3 Hnone Hc) in Ha.
      injection Ha as <-. rewrite Hnone in Hobj. discriminate.
    + destruct (attach_note w normalized as3 Ho3 Hnone Hc)
        as (as4 & Ha' & _ & _ & Hid).
      rewrite Ha' in Ha. injection Ha as <-. exact Hid.
  - destruct (attach_keeps_object w normalized as3 Ho3 Hset)
      as (as4 & Ha' & Hk).
    rewrite Ha' in Ha. injection Ha as <-.
    destruct (Hk "id") as [-> _]; [discriminate|].
    rewrite Hid, <- Hmid. unfold js_or, createIdentifier.
    destruct (textIsUrl lib normalized); reflexivity.
Qed.

Lemma object_id_source_witness :
  exists as2,
    parse sampleImports sampleParser (sampleWorld 0 "fresh") sampleText
      = Resolved as2
    /\ get (get as2 "object") "id" = VStr "fresh".
Proof.
  eexists. split; [reflexivity|].
  apply (object_id_source sampleImports sampleParser (sampleWorld 0 "fresh")
           sampleText _ eq_refl).
  reflexivity.
Defined.

(** *** Ill-typed fields *)

Lemma truthy_field_object (o : value) (k : string) :
  truthy (get o k) = true -> negb (truthy o) || R_isEmpty o = false.
Proof.
  destruct o; simpl; try discriminate.
  destruct fields; [discriminate | reflexivity].
Qed.

(** X19.  On a message with a truthy text: if [thread_ts || ts] is truthy
    but not a string, [parse] throws a TypeError before returning any
    promise; otherwise, if the text is not a string, the promise it returns
    is rejected with a TypeError. *)
Theorem parse_type_errors (lib : Imports) (this : t) (w : World)
        (event : value) :
  let normalized := cleanNulls lib event in
  let ts := js_or (get normalized "thread_ts") (get normalized "ts") in
  truthy (get normalized "text") = true ->
  (truthy ts = true -> (forall s, ts <> VStr s) ->
   parse lib this w event = Threw TypeError)
  /\ (truthy ts = false \/ (exists s, ts = VStr s) ->
      (forall s, get normalized "text" <> VStr s) ->
      parse lib this w event = Rejected TypeError).
Proof.
  intros normalized ts Ht.
  assert (Hparse :
    parse lib this w event =
      match createActivityStream lib this w normalized with
      | inr e => Threw e
      | inl as0 =>
          match (as2 <- extractObject lib w normalized
                          (set (set as0 "actor" (actorOf normalized))
                               "target" (targetOf normalized)) ;;
                 attachNoteAndContext w normalized as2) with
          | Fulfilled as2 => Resolved as2
          | Broken e => Rejected e
          end
      end).
  { unfold parse. fold normalized.
    now rewrite (truthy_field_object _ _ Ht), Ht. }
  rewrite Hparse. unfold createActivityStream. fold ts.
  split.
  - intros Hts Hno. rewrite Hts. unfold ts2Timestamp.
    destruct ts as [| | | |s| |]; try reflexivity.
    exfalso. exact (Hno s eq_refl).
  - intros Hts Hno.
    assert (Hc : exists p,
              (if truthy ts then ts2Timestamp lib ts
               else ret (Num (now w / 1000))) = ret p).
    { destruct Hts as [-> | [s ->]]; [eexists; reflexivity|].
      destruct (truthy (VStr s)); eexists; reflexivity. }
    destruct Hc as [p ->]. cbv beta iota delta [ret].
    unfold extractObject.
    destruct (get normalized "text") as [| | | |s| |]; try reflexivity.
    exfalso. exact (Hno s eq_refl).
Qed.

Lemma parse_type_errors_witness :
  parse sampleImports sampleParser (sampleWorld 0 "id")
        (VObj [("text", VStr "hello"); ("ts", VNum (Num 1355517523))])
  = Threw TypeError
  /\ parse sampleImports sampleParser (sampleWorld 0 "id")
           (VObj [("text", VNum (Num 42))])
     = Rejected TypeError.
Proof.
  split.
  - destruct (parse_type_errors sampleImports sampleParser (sampleWorld 0 "id")
                (VObj [("text", VStr "hello"); ("ts", VNum (Num 1355517523))])
                eq_refl) as [Hthrow _].
    apply Hthrow; [reflexivity | discriminate].
  - destruct (parse_type_errors sampleImports sampleParser (sampleWorld 0 "id")
                (VObj [("text", VNum (Num 42))]) eq_refl) as [_ Hreject].
    apply Hreject; [now left | discriminate].
Defined.

(** *** Interactive messages without callback data *)

(** X20.  The context of an interactive message is built with a template
    string, so a missing [callback_id] or [response_url] is not an error:
    each missing one appears as the text 'undefined', and a message with
    neither gets the content 'undefined#undefined'. *)
Theorem interactive_context_missing_fields
        (lib : Imports) (this : t) (w : World) (event as2 : value) :
  parse lib this w event = Resolved as2 ->
  truthy (get as2 "object") = true ->
  let normalized := cleanNulls lib event in
  get normalized "subtype" = VStr "interactive_message" ->
  (has_field normalized "callback_id" = false ->
   forall url, get normalized "response_url" = VStr url ->
   get (get (get as2 "object") "context") "content"
     = VStr ("undefined#" ++ url))
  /\ (has_field normalized "response_url" = false ->
      forall id, get normalized "callback_id" = VStr id ->
      get (get (get as2 "object") "context") "content"
        = VStr (id ++ "#undefined"))
  /\ (has_field normalized "callback_id" = false ->
      has_field normalized "response_url" = false ->
      get (get (get as2 "object") "context") "content"
        = VStr "undefined#undefined").
Proof.
  intros H Hobj normalized Hsub.
  destruct (parse_resolved _ _ _ _ _ H)
    as [-> | (p & as3 & _ & _ & Hp & _ & _ & Ha)]; [discriminate|].
  fold normalized in Ha.
  destruct (attachNoteAndContext_shape _ _ _ _ Hp Ha) as (_ & Hyes & _).
  rewrite Hsub in Hyes. specialize (Hyes eq_refl Hobj). rewrite Hyes.
  unfold callbackContext. cbn [get lookup String.eqb Ascii.eqb Bool.eqb].
  split; [|split].
  - intros Hc url Hu.
    rewrite (has_field_get_undefined _ _ Hc), Hu. reflexivity.
  - intros Hr id Hi.
    rewrite (has_field_get_undefined _ _ Hr), Hi. reflexivity.
  - intros Hc Hr.
    now rewrite (has_field_get_undefined _ _ Hc),
                (has_field_get_undefined _ _ Hr).
Qed.

Lemma interactive_context_missing_fields_witness :
  exists as2,
    parse sampleImports sampleParser (sampleWorld 0 "id")
          (VObj [ ("text", VStr "pick one");
                  ("subtype", VStr "interactive_message") ])
      = Resolved as2
    /\ get (get (get as2 "object") "context") "content"
       = VStr "undefined#undefined".
Proof.
  eexists. split; [reflexivity|].
  destruct (interactive_context_missing_fields sampleImports sampleParser
              (sampleWorld 0 "id")
              (VObj [ ("text", VStr "pick one");
                      ("subtype", VStr "interactive_message") ])
              _ eq_refl eq_refl eq_refl) as (_ & _ & Hboth).
  apply Hboth; reflexivity.
Defined.

End ParserExtras.
